(** * Email validator: policy checks, MX resolution, SMTP probe, orchestration

    A shallow embedding of [main.py] (FastAPI service [validate_email]) and
    the properties of its validation pipeline.

    Modelling conventions.
    - Python [str] is [string]; the text operations used by the service
      ([split], [lower], [replace], [rstrip], [endswith]) are written out on
      ASCII text.
    - Python [int] is [Z]; [len] returns a [Z].
    - Python [set] objects are [gset string]; the order in which a set is
      iterated is not fixed by the language, so it is a field of the
      environment.
    - The network (DNS answers, SMTP replies, faults) is an environment
      record; every call that reaches it is written to a trace of events.
    - Exceptions are values of [exn]; [try]/[except]/[finally] are
      combinators that select the first clause whose class tuple contains a
      base class of the raised exception. *)

From stdpp Require Import gmap strings list pretty.
From Stdlib Require Import ZArith Ascii String Permutation Sorted.

Local Open Scope string_scope.
Local Open Scope Z_scope.

(** ** Python text operations *)

Module Py.

Definition len (s : string) : Z := Z.of_nat (String.length s).

(** [s.endswith(suffix)] *)
Definition endswith (s suffix : string) : bool :=
  let n := String.length s in
  let k := String.length suffix in
  if (k <=? n)%nat then String.eqb (substring (n - k) k s) suffix else false.

(** [s.split(sep)] for a one-character separator; never the empty list. *)
Fixpoint split (sep : ascii) (s : string) : list string :=
  match s with
  | EmptyString => [EmptyString]
  | String c rest =>
      if Ascii.eqb c sep then EmptyString :: split sep rest
      else match split sep rest with
           | piece :: pieces => String c piece :: pieces
           | [] => [String c EmptyString]
           end
  end.

(** [l[0]] and [l[-1]] on the result of a split (which is never empty). *)
Definition first (l : list string) : string := hd EmptyString l.
Definition final (l : list string) : string := List.last l EmptyString.

Definition lower_char (c : ascii) : ascii :=
  let n := nat_of_ascii c in
  if ((65 <=? n) && (n <=? 90))%nat then ascii_of_nat (n + 32) else c.

(** [s.lower()] *)
Fixpoint lower (s : string) : string :=
  match s with
  | EmptyString => EmptyString
  | String c rest => String (lower_char c) (lower rest)
  end.

(** [s.replace(c, "")] for a one-character pattern *)
Fixpoint remove_char (c : ascii) (s : string) : string :=
  match s with
  | EmptyString => EmptyString
  | String d rest =>
      if Ascii.eqb d c then remove_char c rest else String d (remove_char c rest)
  end.

(** [s.rstrip(c)] for a one-character set *)
Fixpoint rstrip (c : ascii) (s : string) : string :=
  match s with
  | EmptyString => EmptyString
  | String d rest =>
      match rstrip c rest with
      | EmptyString => if Ascii.eqb d c then EmptyString else String d EmptyString
      | kept => String d kept
      end
  end.

(** [str(n)] for an integer *)
Definition str (n : Z) : string := pretty n.

(** Stable insertion into a list already ordered by [before]: the new
    element, which precedes every element of [l] in the input, is placed in
    front of the first element it may precede. *)
Section Sorting.
Context {A K : Type} (key : A -> K) (before : K -> K -> bool).

Fixpoint insert_stable (x : A) (l : list A) : list A :=
  match l with
  | [] => [x]
  | y :: rest =>
      if before (key x) (key y) then x :: y :: rest
      else y :: insert_stable x rest
  end.

(** [sorted(l, key=key)] / [l.sort(key=key)]: the stable sort. *)
Fixpoint sorted (l : list A) : list A :=
  match l with
  | [] => []
  | x :: rest => insert_stable x (sorted rest)
  end.
End Sorting.

(** ascending order of an integer key, and [reverse=True] *)
Definition ascending (a b : Z) : bool := a <=? b.
Definition descending (a b : Z) : bool := b <=? a.

End Py.

(** ** Configuration *)

(** [VALID_TLDS], in the order of the set literal. *)
Definition VALID_TLDS_literal : list string :=
  [".com"; ".net"; ".org"; ".edu"; ".gov"; ".co"; ".io"; ".dev"; ".info";
   ".biz"; ".mx"; ".es"; ".app"; ".xyz"].

Definition VALID_TLDS : gset string := list_to_set VALID_TLDS_literal.

Definition ROLE_BASED_USERS : gset string :=
  list_to_set ["admin"; "info"; "support"; "sales"; "contact"; "webmaster";
               "postmaster"; "abuse"; "hostmaster"].

(** ** Domain policy checks *)

Definition is_role_based (email : string) : bool :=
  let local_part :=
    Py.remove_char "."
      (Py.first (Py.split "+" (Py.lower (Py.first (Py.split "@" email))))) in
  bool_decide (local_part ∈ ROLE_BASED_USERS).

(** The [for] loop of [is_valid_tld] over the sorted candidates: the value
    returned, and the candidates tested with [domain.endswith], one per
    iteration performed and in the order of the iterations. *)
Fixpoint tld_loop (domain : string) (candidates : list string)
    : bool * list string :=
  match candidates with
  | [] => (false, [])
  | tld :: rest =>
      if Py.endswith domain tld then
        let tld_start_index := Py.len domain - Py.len tld in
        if 0 <? tld_start_index then (true, [tld])
        else
          let '(answer, tested) := tld_loop domain rest in
          (answer, tld :: tested)
      else
        let '(answer, tested) := tld_loop domain rest in
        (answer, tld :: tested)
  end.

(** [sorted(list(VALID_TLDS), key=len, reverse=True)]; [tld_list] is
    [list(VALID_TLDS)], the set in its iteration order. *)
Definition sorted_tlds (tld_list : list string) : list string :=
  Py.sorted Py.len Py.descending tld_list.

(** One call of [is_valid_tld]: its answer and the suffixes it tested. *)
Definition is_valid_tld_run (tld_list : list string) (domain : string)
    : bool * list string :=
  tld_loop domain (sorted_tlds tld_list).

Definition is_valid_tld (tld_list : list string) (domain : string) : bool :=
  (is_valid_tld_run tld_list domain).1.

(** ** Exceptions

    The classes of [Exception] that the service names in its [except]
    clauses or that the libraries it calls raise, with their bases as in
    Python 3.10+ ([socket.timeout] is [TimeoutError], [socket.error] is
    [OSError], [smtplib.SMTPException] derives from [OSError]) and dnspython
    2.x.  [Subclass name base] is any further class derived from [base]. *)

Inductive exn : Type :=
  | Exception
  | LookupError | IndexError
  | ValueError | UnicodeError | UnicodeEncodeError
  | TypeError | RuntimeError
  | OSError | TimeoutError
  | ConnectionError | ConnectionRefusedError | ConnectionResetError
  | ConnectionAbortedError | BrokenPipeError
  | socket_gaierror
  | SMTPException | SMTPServerDisconnected | SMTPResponseException
  | SMTPConnectError | SMTPHeloError
  | DNSException | DNSTimeout | LifetimeTimeout
  | NXDOMAIN | YXDOMAIN | NoAnswer | NoNameservers
  | Subclass (name : string) (base : exn).

#[global] Instance exn_eq_dec : EqDecision exn.
Proof. solve_decision. Defined.

Definition socket_timeout : exn := TimeoutError.
Definition socket_error : exn := OSError.

(** The class itself followed by its bases, most derived first. *)
Fixpoint mro (c : exn) : list exn :=
  let exc := [Exception] in
  let os := OSError :: exc in
  let connection := ConnectionError :: os in
  let smtp := SMTPException :: os in
  let response := SMTPResponseException :: smtp in
  let dns := DNSException :: exc in
  match c with
  | Exception => exc
  | LookupError => LookupError :: exc
  | IndexError => [IndexError; LookupError] ++ exc
  | ValueError => ValueError :: exc
  | UnicodeError => [UnicodeError; ValueError] ++ exc
  | UnicodeEncodeError => [UnicodeEncodeError; UnicodeError; ValueError] ++ exc
  | TypeError => TypeError :: exc
  | RuntimeError => RuntimeError :: exc
  | OSError => os
  | TimeoutError => TimeoutError :: os
  | ConnectionError => connection
  | ConnectionRefusedError => ConnectionRefusedError :: connection
  | ConnectionResetError => ConnectionResetError :: connection
  | ConnectionAbortedError => ConnectionAbortedError :: connection
  | BrokenPipeError => BrokenPipeError :: connection
  | socket_gaierror => socket_gaierror :: os
  | SMTPException => smtp
  | SMTPServerDisconnected => SMTPServerDisconnected :: smtp
  | SMTPResponseException => response
  | SMTPConnectError => SMTPConnectError :: response
  | SMTPHeloError => SMTPHeloError :: response
  | DNSException => dns
  | DNSTimeout => DNSTimeout :: dns
  | LifetimeTimeout => [LifetimeTimeout; DNSTimeout] ++ dns
  | NXDOMAIN => NXDOMAIN :: dns
  | YXDOMAIN => YXDOMAIN :: dns
  | NoAnswer => NoAnswer :: dns
  | NoNameservers => NoNameservers :: dns
  | Subclass _ base => c :: mro base
  end.

(** [isinstance(e, classes)] for a tuple of classes. *)
Definition isinstance (e : exn) (classes : list exn) : bool :=
  existsb (fun c => bool_decide (c ∈ mro e)) classes.

(** ** The outside world and the effects of the service *)

Definition reply : Type := Z * string.

Inductive event : Type :=
  | EvResolve (nameservers : list string) (qname rdtype : string)
  | EvSmtpNew (timeout : Z)
  | EvConnect (host : string) (port : Z)
  | EvHelo (host name : string)
  | EvMail (host sender : string)
  | EvRcpt (host recip : string)
  | EvQuit (host : string)
  | EvClose.

Inductive outcome (A : Type) : Type :=
  | Return (a : A)
  | Raise (e : exn).
Arguments Return {A} a.
Arguments Raise {A} e.

(** One MX record of an answer: [str(answer.exchange)] and
    [int(answer.preference)]. *)
Record MxAnswer : Type := { exchange : string; preference : Z }.

(** What a mail host does at each step of a session. *)
Record SmtpServer : Type := {
  srv_connect : outcome reply;
  srv_helo : string -> outcome reply;
  srv_mail : string -> outcome reply;
  srv_rcpt : string -> outcome reply;
  srv_quit : outcome reply
}.

Record Env : Type := {
  (** the set loaded from [domains_blacklist.txt] at start-up *)
  BLACKLISTED_DOMAINS : gset string;
  (** [list(VALID_TLDS)]: the set in the order this process iterates it *)
  tld_iteration : list string;
  (** [resolver.resolve(domain, 'MX')] *)
  dns_mx : string -> outcome (list MxAnswer);
  (** [smtplib.SMTP(timeout=...)], which opens no connection *)
  smtp_init : outcome unit;
  smtp_server : string -> SmtpServer
}.

(** A computation over the local variables [S] of a function: it returns or
    raises, leaves the variables updated and emits the calls it made. *)
Definition io (S A : Type) : Type := S -> outcome A * S * list event.

Definition ret {S A} (a : A) : io S A := fun s => (Return a, s, []).
Definition raise {S A} (e : exn) : io S A := fun s => (Raise e, s, []).

Definition bind {S A B} (m : io S A) (k : A -> io S B) : io S B :=
  fun s =>
    match m s with
    | (Return a, s1, t1) => let '(r, s2, t2) := k a s1 in (r, s2, (t1 ++ t2)%list)
    | (Raise e, s1, t1) => (Raise e, s1, t1)
    end.

(** The sequencing notations [x ← m; k] and [m;; k] are those of stdpp. *)
#[global] Instance io_mret {S} : MRet (io S) := fun A => @ret S A.
#[global] Instance io_mbind {S} : MBind (io S) := fun A B k m => @bind S A B m k.

Definition get {S} : io S S := fun s => (Return s, s, []).
Definition put {S} (s : S) : io S unit := fun _ => (Return tt, s, []).

(** A call that leaves the process: logged, answered by the environment. *)
Definition extern {S A} (ev : event) (answer : outcome A) : io S A :=
  fun s => (answer, s, [ev]).

(** [try: body  except classes_1: h_1  except classes_2: h_2 ...] *)
Definition try_except {S A} (body : io S A)
    (handlers : list (list exn * io S A)) : io S A :=
  fun s =>
    match body s with
    | (Return a, s1, t1) => (Return a, s1, t1)
    | (Raise e, s1, t1) =>
        match find (fun h => isinstance e (fst h)) handlers with
        | Some h => let '(r, s2, t2) := snd h s1 in (r, s2, (t1 ++ t2)%list)
        | None => (Raise e, s1, t1)
        end
    end.

(** [try: body  finally: cleanup] *)
Definition try_finally {S A} (body : io S A) (cleanup : io S unit) : io S A :=
  fun s =>
    let '(r, s1, t1) := body s in
    let '(c, s2, t2) := cleanup s1 in
    (match c with Raise e => Raise e | Return _ => r end, s2, (t1 ++ t2)%list).

(** Calling a function: it runs on its own local variables. *)
Definition invoke {S S' A} (callee : io S' A) (locals : S') : io S A :=
  fun s => let '(r, _, t) := callee locals in (r, s, t).

(** [l[0]] *)
Definition getitem0 {S A} (l : list A) : io S A :=
  match l with
  | [] => raise IndexError
  | x :: _ => ret x
  end.

Fixpoint for_each {S A B} (f : A -> io S B) (l : list A) : io S (list B) :=
  match l with
  | [] => ret []
  | x :: rest => y ← f x; ys ← for_each f rest; ret (y :: ys)
  end.

(** [l.sort(key=key)]: the keys are computed first, one per element, then
    the elements are put in stable ascending order of their keys. *)
Definition list_sort_key {S} (key : string -> io S Z) (l : list string)
    : io S (list string) :=
  keys ← for_each key l;
  ret (map snd (Py.sorted fst Py.ascending (zip keys l))).

(** ** The response model *)

Module ValidationResult.
Record t : Type := make {
  is_valid_format : bool;
  domain_exists : bool;
  is_blacklisted : bool;
  smtp_check_status : string;
  is_role_based : bool;
  message : string;
  mx_records : option (list string)
}.

(** [result[field] = v] *)
Definition set_domain_exists (v : bool) (r : t) : t :=
  make (is_valid_format r) v (is_blacklisted r) (smtp_check_status r)
       (is_role_based r) (message r) (mx_records r).
Definition set_is_blacklisted (v : bool) (r : t) : t :=
  make (is_valid_format r) (domain_exists r) v (smtp_check_status r)
       (is_role_based r) (message r) (mx_records r).
Definition set_smtp_check_status (v : string) (r : t) : t :=
  make (is_valid_format r) (domain_exists r) (is_blacklisted r) v
       (is_role_based r) (message r) (mx_records r).
Definition set_message (v : string) (r : t) : t :=
  make (is_valid_format r) (domain_exists r) (is_blacklisted r)
       (smtp_check_status r) (is_role_based r) v (mx_records r).
Definition set_mx_records (v : option (list string)) (r : t) : t :=
  make (is_valid_format r) (domain_exists r) (is_blacklisted r)
       (smtp_check_status r) (is_role_based r) (message r) v.
End ValidationResult.

(** An [smtplib.SMTP] object: the host its socket is connected to, if any. *)
Record SMTP : Type := { sock : option string }.

(** Truth value of a list. *)
Definition truthy {A} (l : list A) : bool :=
  match l with [] => false | _ :: _ => true end.

Section Service.
Variable env : Env.

(** *** MX resolver *)

Definition nameservers : list string := ["1.1.1.1"; "8.8.8.8"; "9.9.9.9"].

(** The sort key of [sync_mx_lookup]: the preference of the first answer
    whose exchange name, without trailing dots, is [x]. *)
Definition preference_key (mx_answers : list MxAnswer) (x : string)
    : io unit Z :=
  getitem0
    (map preference
       (filter (fun mx => Py.rstrip "." (exchange mx) = x) mx_answers)).

Definition sync_mx_lookup (domain : string) : io unit (option (list string)) :=
  try_except
    (mx_answers ← extern (EvResolve nameservers domain "MX") (dns_mx env domain);
     let mx_records := map (fun answer => Py.rstrip "." (exchange answer)) mx_answers in
     mx_records ← list_sort_key (preference_key mx_answers) mx_records;
     ret (Some mx_records))
    [ ([NXDOMAIN], ret None);
      ([NoAnswer], ret (Some []));
      ([Exception], ret None) ].

(** [loop.run_in_executor(None, sync_mx_lookup)] awaits the same result. *)
Definition get_mx_records (domain : string) : io unit (option (list string)) :=
  sync_mx_lookup domain.

(** *** SMTP probe; the local variable is [conn] *)

Definition SMTP_new (timeout : Z) : io (option SMTP) SMTP :=
  extern (EvSmtpNew timeout) (smtp_init env);;
  ret {| sock := None |}.

Definition SMTP_connect (host : string) (port : Z) : io (option SMTP) reply :=
  r ← extern (EvConnect host port) (srv_connect (smtp_server env host));
  put (Some {| sock := Some host |});;
  ret r.

(** A command on the connected socket; without one smtplib raises
    [SMTPServerDisconnected].  The socket is kept after a command that
    raises, so the clean-up of this model may still send QUIT where smtplib,
    which drops its socket on a disconnect, would not: the traces of the
    model contain those of the code. *)
Definition on_socket {A} (ev : string -> event)
    (answer : SmtpServer -> outcome A) : io (option SMTP) A :=
  conn ← get;
  match conn with
  | Some {| sock := Some host |} => extern (ev host) (answer (smtp_server env host))
  | _ => raise SMTPServerDisconnected
  end.

Definition SMTP_helo (name : string) : io (option SMTP) reply :=
  on_socket (fun host => EvHelo host name) (fun srv => srv_helo srv name).
Definition SMTP_mail (sender : string) : io (option SMTP) reply :=
  on_socket (fun host => EvMail host sender) (fun srv => srv_mail srv sender).
Definition SMTP_rcpt (recip : string) : io (option SMTP) reply :=
  on_socket (fun host => EvRcpt host recip) (fun srv => srv_rcpt srv recip).
Definition SMTP_quit : io (option SMTP) reply :=
  on_socket EvQuit srv_quit.
Definition SMTP_close : io (option SMTP) unit :=
  extern EvClose (Return tt);;
  put (Some {| sock := None |}).

(** The body of the [try] block. *)
Definition smtp_dialogue (email mx_server : string)
  : io (option SMTP) (string * string) :=
conn ← SMTP_new 4;
put (Some conn);;
SMTP_connect mx_server 25;;
SMTP_helo "email-validator.example.com";;
'(code, _) ← SMTP_mail "test@example.com";
if negb (code =? 250) then
  ret ("refused", "Server refused MAIL FROM command.")
else
  '(code, msg) ← SMTP_rcpt email;
  if code =? 250 then
    ret ("success",
         "The mail server confirmed the email address exists (Code 250).")
  else if bool_decide (code ∈ [550; 553]) then
    ret ("refused",
         "Mailbox does not exist (550/553) or server explicitly rejected the address.")
  else
    ret ("refused",
         "Server rejected the recipient with code " +:+ Py.str code +:+ ".").

(** The [except] clauses, in source order. *)
Definition smtp_faults (mx_server : string)
  : list (list exn * io (option SMTP) (string * string)) :=
[ ([socket_timeout; TimeoutError],
   ret ("timeout",
        "Connection to the mail server (" +:+ mx_server +:+ ") timed out."));
  ([SMTPConnectError],
   ret ("refused",
        "Could not connect to the mail server (" +:+ mx_server +:+ ") on port 25."));
  ([SMTPServerDisconnected; ConnectionResetError; socket_error],
   ret ("timeout",
        "The mail server or network unexpectedly disconnected during validation. Status is uncertain."));
  ([Exception],
   ret ("unknown", "An unexpected critical error occurred.")) ].

(** The [finally] block. *)
Definition smtp_cleanup : io (option SMTP) unit :=
conn ← get;
match conn : option SMTP with
| Some _ => try_except (SMTP_quit;; SMTP_close) [ ([Exception], ret tt) ]
| None => ret tt
end.

Definition check_smtp (email : string) (mx_records : list string)
  : io (option SMTP) (string * string) :=
mx_server ← getitem0 mx_records;
put None;;
try_finally
  (try_except (smtp_dialogue email mx_server) (smtp_faults mx_server))
  smtp_cleanup.

(** *** Orchestrator: the [/validate] endpoint *)

Definition smtp_final_message (email smtp_status smtp_message : string) : string :=
  if String.eqb smtp_status "success" then
    "Email '" +:+ email +:+ "' is valid and the mailbox exists."
  else if String.eqb smtp_status "refused" then
    "Domain exists, but the mail server explicitly rejected the address. It is likely invalid. Detail: "
      +:+ smtp_message
  else if String.eqb smtp_status "timeout" then
    "Domain exists, but the mail server timed out. Mailbox existence is uncertain."
  else
    "Validation failed due to an unexpected server error. Detail: " +:+ smtp_message.

Definition validate_email (email : string) (smtp_check_enabled : bool)
    : io unit ValidationResult.t :=
  let domain := Py.lower (Py.final (Py.split "@" email)) in
  let result :=
    ValidationResult.make true false false
      (if negb smtp_check_enabled then "skipped" else "unknown")
      (is_role_based email) "" None in
  if bool_decide (domain ∈ BLACKLISTED_DOMAINS env) then
    let result := ValidationResult.set_is_blacklisted true result in
    ret (ValidationResult.set_message
           ("The domain '" +:+ domain +:+ "' is blacklisted and should not be used.")
           result)
  else if negb (is_valid_tld (tld_iteration env) domain) then
    ret (ValidationResult.set_message
           ("The domain '" +:+ domain +:+ "' does not appear to have a valid Top-Level Domain.")
           result)
  else
    mx_records ← get_mx_records domain;
    match mx_records with
    | None =>
        ret (ValidationResult.set_message
               ("The domain '" +:+ domain +:+ "' does not exist (NXDOMAIN).") result)
    | Some mx_records =>
        if truthy mx_records then
          let result := ValidationResult.set_domain_exists true result in
          let result := ValidationResult.set_mx_records (Some mx_records) result in
          result ←
            (if smtp_check_enabled then
               '(smtp_status, smtp_message) ← invoke (check_smtp email mx_records) None;
               let result := ValidationResult.set_smtp_check_status smtp_status result in
               ret (ValidationResult.set_message
                      (smtp_final_message email smtp_status smtp_message) result)
             else ret result);
          if String.eqb (ValidationResult.message result) "" then
            ret (ValidationResult.set_message
                   "Basic validation successful. Domain is valid, but mailbox existence was not verified (SMTP check skipped)."
                   result)
          else ret result
        else
          ret (ValidationResult.set_message
                 ("The domain '" +:+ domain +:+ "' exists, but no Mail Exchange (MX) records were found.")
                 result)
    end.

End Service.


(** ** Descriptions used in the statements *)

(** What one candidate suffix decides inside the loop of [is_valid_tld]. *)
Definition tld_accepts (domain tld : string) : bool :=
  Py.endswith domain tld && (0 <? Py.len domain - Py.len tld).

(** The host name of an answer as [sync_mx_lookup] writes it. *)
Definition host_of (answer : MxAnswer) : string :=
  Py.rstrip "." (exchange answer).

(** The value of the sort key of [sync_mx_lookup] at host [x]. *)
Definition first_preference (mx_answers : list MxAnswer) (x : string) : Z :=
  default 0 (head (map preference (filter (fun mx => host_of mx = x) mx_answers))).

(** The host list [sync_mx_lookup] returns for an answer. *)
Definition mx_order (mx_answers : list MxAnswer) : list string :=
  let hosts := map host_of mx_answers in
  map snd (Py.sorted fst Py.ascending
             (zip (map (first_preference mx_answers) hosts) hosts)).

(** The value [sync_mx_lookup] returns for a resolver reply. *)
Definition mx_result (resolved : outcome (list MxAnswer)) : option (list string) :=
  match resolved with
  | Return mx_answers => Some (mx_order mx_answers)
  | Raise e =>
      if isinstance e [NXDOMAIN] then None
      else if isinstance e [NoAnswer] then Some []
      else None
  end.

(** The resolution outcomes of the specification and the way the service
    encodes them in an [Optional[List[str]]]. *)
Inductive ResolutionKind : Type := Absent | NoRoute | Routed.

Definition kind_of (mx_records : option (list string)) : ResolutionKind :=
  match mx_records with
  | None => Absent
  | Some [] => NoRoute
  | Some (_ :: _) => Routed
  end.

(** The classification rules as the specification words them: a
    name-does-not-exist response is Absent, a response without MX records is
    NoRoute, a response with records is Routed, any other resolver error is
    Absent. *)
Definition spec_resolution (resolved : outcome (list MxAnswer)) : ResolutionKind :=
  match resolved with
  | Return [] => NoRoute
  | Return (_ :: _) => Routed
  | Raise e =>
      if bool_decide (NXDOMAIN ∈ mro e) then Absent
      else if bool_decide (NoAnswer ∈ mro e) then NoRoute
      else Absent
  end.

(** The ordering the specification words: the records in stable ascending
    order of their own preference, then their host names. *)
Definition hosts_by_preference (mx_answers : list MxAnswer) : list string :=
  map host_of (Py.sorted preference Py.ascending mx_answers).

(** What the [try] block of [check_smtp] comes to: the pair it returns or
    the first exception raised on the way. *)
Definition dialogue (env : Env) (mx_server email : string)
    : outcome (string * string) :=
  let srv := smtp_server env mx_server in
  match smtp_init env with
  | Raise e => Raise e
  | Return _ =>
  match srv_connect srv with
  | Raise e => Raise e
  | Return _ =>
  match srv_helo srv "email-validator.example.com" with
  | Raise e => Raise e
  | Return _ =>
  match srv_mail srv "test@example.com" with
  | Raise e => Raise e
  | Return (code, _) =>
      if negb (code =? 250) then
        Return ("refused", "Server refused MAIL FROM command.")
      else
        match srv_rcpt srv email with
        | Raise e => Raise e
        | Return (code, _) =>
            if code =? 250 then
              Return ("success",
                      "The mail server confirmed the email address exists (Code 250).")
            else if bool_decide (code ∈ [550; 553]) then
              Return ("refused",
                      "Mailbox does not exist (550/553) or server explicitly rejected the address.")
            else
              Return ("refused",
                      "Server rejected the recipient with code " +:+ Py.str code +:+ ".")
        end
  end end end end.

(** The pair the [except] clauses of [check_smtp] return for a fault. *)
Definition fault_verdict (mx_server : string) (e : exn) : string * string :=
  if isinstance e [socket_timeout; TimeoutError] then
    ("timeout", "Connection to the mail server (" +:+ mx_server +:+ ") timed out.")
  else if isinstance e [SMTPConnectError] then
    ("refused",
     "Could not connect to the mail server (" +:+ mx_server +:+ ") on port 25.")
  else if isinstance e [SMTPServerDisconnected; ConnectionResetError; socket_error] then
    ("timeout",
     "The mail server or network unexpectedly disconnected during validation. Status is uncertain.")
  else ("unknown", "An unexpected critical error occurred.").

(** The pair [check_smtp] returns for the most preferred host. *)
Definition probe_verdict (env : Env) (mx_server email : string) : string * string :=
  match dialogue env mx_server email with
  | Return verdict => verdict
  | Raise e => fault_verdict mx_server e
  end.

(** What the caller of [check_smtp] receives. *)
Definition probe_outcome (env : Env) (email : string) (mx_records : list string)
    : outcome (string * string) :=
  (check_smtp env email mx_records None).1.1.

(** The domain the orchestrator derives from the address. *)
Definition domain_of (email : string) : string :=
  Py.lower (Py.final (Py.split "@" email)).

(** The pipeline ends before the SMTP probe stage: the domain is
    blacklisted, its TLD is not valid, or resolution is Absent or NoRoute. *)
Definition stops_before_probe (env : Env) (email : string) : bool :=
  bool_decide (domain_of email ∈ BLACKLISTED_DOMAINS env)
  || negb (is_valid_tld (tld_iteration env) (domain_of email))
  || negb (truthy (default [] (mx_result (dns_mx env (domain_of email))))).

(** The exception classes named by the first three [except] clauses. *)
Definition anticipated : list exn :=
  [socket_timeout; TimeoutError; SMTPConnectError; SMTPServerDisconnected;
   ConnectionResetError; socket_error].

(** The result [validate_email] returns, stage by stage. *)
Definition verdict (env : Env) (email : string) (smtp_check_enabled : bool)
    : ValidationResult.t :=
  let domain := domain_of email in
  let result :=
    ValidationResult.make true false false
      (if negb smtp_check_enabled then "skipped" else "unknown")
      (is_role_based email) "" None in
  if bool_decide (domain ∈ BLACKLISTED_DOMAINS env) then
    ValidationResult.set_message
      ("The domain '" +:+ domain +:+ "' is blacklisted and should not be used.")
      (ValidationResult.set_is_blacklisted true result)
  else if negb (is_valid_tld (tld_iteration env) domain) then
    ValidationResult.set_message
      ("The domain '" +:+ domain +:+ "' does not appear to have a valid Top-Level Domain.")
      result
  else
    match mx_result (dns_mx env domain) with
    | None =>
        ValidationResult.set_message
          ("The domain '" +:+ domain +:+ "' does not exist (NXDOMAIN).") result
    | Some [] =>
        ValidationResult.set_message
          ("The domain '" +:+ domain +:+ "' exists, but no Mail Exchange (MX) records were found.")
          result
    | Some (mx_server :: others) =>
        let result :=
          ValidationResult.set_mx_records (Some (mx_server :: others))
            (ValidationResult.set_domain_exists true result) in
        let result :=
          if smtp_check_enabled then
            let '(smtp_status, smtp_message) := probe_verdict env mx_server email in
            ValidationResult.set_message
              (smtp_final_message email smtp_status smtp_message)
              (ValidationResult.set_smtp_check_status smtp_status result)
          else result in
        if String.eqb (ValidationResult.message result) "" then
          ValidationResult.set_message
            "Basic validation successful. Domain is valid, but mailbox existence was not verified (SMTP check skipped)."
            result
        else result
    end.

(** ** Scenarios: concrete environments *)

Module Scenario.

Definition accept (code : Z) : outcome reply := Return (code, "").

Definition server (connect mail rcpt : outcome reply) : SmtpServer :=
  {| srv_connect := connect;
     srv_helo := fun _ => accept 250;
     srv_mail := fun _ => mail;
     srv_rcpt := fun _ => rcpt;
     srv_quit := accept 221 |}.

Definition world (blacklist : list string) (resolved : outcome (list MxAnswer))
    (srv : SmtpServer) : Env :=
  {| BLACKLISTED_DOMAINS := list_to_set blacklist;
     tld_iteration := VALID_TLDS_literal;
     dns_mx := fun _ => resolved;
     smtp_init := Return tt;
     smtp_server := fun _ => srv |}.

Definition friendly : SmtpServer := server (accept 220) (accept 250) (accept 250).

(** An MX answer in which one exchange appears with two preferences. *)
Definition duplicate_exchange : list MxAnswer :=
  [ {| exchange := "mx1.example.com."; preference := 20 |};
    {| exchange := "mx2.example.com."; preference := 15 |};
    {| exchange := "mx1.example.com."; preference := 10 |} ].

(** A host answering RCPT TO with [code]. *)
Definition rcpt_world (code : Z) : Env :=
  world [] (Return []) (server (accept 220) (accept 250) (accept code)).

(** A host whose port 25 refuses the TCP connection. *)
Definition closed_port : Env :=
  world [] (Return [])
    (server (Raise ConnectionRefusedError) (accept 250) (accept 250)).

Definition two_records : list MxAnswer :=
  [ {| exchange := "mx2."; preference := 20 |};
    {| exchange := "mx1."; preference := 10 |} ].

End Scenario.

(** ** Loading the blacklist *)

(** [c.isspace()] on ASCII: tab, line feed, vertical tab, form feed, carriage
    return, the four separators 28 to 31, and the space. *)
Definition py_isspace (c : ascii) : bool :=
  let n := nat_of_ascii c in
  (((9 <=? n) && (n <=? 13)) || ((28 <=? n) && (n <=? 32)))%nat.

(** [s.lstrip()] *)
Fixpoint py_lstrip (s : string) : string :=
  match s with
  | EmptyString => EmptyString
  | String c rest => if py_isspace c then py_lstrip rest else s
  end.

(** [s.rstrip()] *)
Fixpoint py_rstrip (s : string) : string :=
  match s with
  | EmptyString => EmptyString
  | String c rest =>
      match py_rstrip rest with
      | EmptyString => if py_isspace c then EmptyString else String c EmptyString
      | kept => String c kept
      end
  end.

(** [s.strip()] *)
Definition py_strip (s : string) : string := py_lstrip (py_rstrip s).

(** Truth value of a string. *)
Definition nonempty (s : string) : bool :=
  match s with EmptyString => false | String _ _ => true end.

(** What opening and iterating a text file gives: its lines, or the
    exception raised on the way with its [str()]. *)
Inductive FileRead : Type :=
  | Lines (lines : list string)
  | ReadError (e : exn) (text : string).

Record FileSystem : Type := {
  (** [os.path.exists(path)] *)
  path_exists : string -> bool;
  (** [open(path, "r", encoding="utf-8")] iterated line by line *)
  read_text : string -> FileRead
}.

(** [load_blacklist]: the value returned (or the exception let through) and
    the lines printed. *)
Definition load_blacklist (fs : FileSystem) (file_path : string)
    : outcome (gset string) * list string :=
  if negb (path_exists fs file_path) then
    (Return ∅, ["Warning: Blacklist file not found at: " +:+ file_path])
  else
    match read_text fs file_path with
    | Lines lines =>
        (Return
           (list_to_set
              (map (fun line => Py.lower (py_strip line))
                 (List.filter (fun line => nonempty (py_strip line)) lines))),
         [])
    | ReadError e text =>
        if isinstance e [Exception] then
          (Return ∅, ["Error loading blacklist: " +:+ text])
        else (Raise e, [])
    end.

Definition BLACKLIST_FILE : string := "domains_blacklist.txt".

(** An environment whose blacklist is the one loaded at start-up:
    [BLACKLISTED_DOMAINS = load_blacklist(BLACKLIST_FILE)]. *)
Definition loaded_at_startup (fs : FileSystem) (env : Env) : Prop :=
  (load_blacklist fs BLACKLIST_FILE).1 = Return (BLACKLISTED_DOMAINS env).

(** ** Traces of the probe and of the orchestrator *)

(** The calls [check_smtp] makes. *)
Definition probe_trace (env : Env) (email : string) (mx_records : list string)
    : list event :=
  (check_smtp env email mx_records None).2.

(** A complete session with one host: every call the probe can make, in the
    order it makes them. *)
Definition full_session (mx_server email : string) : list event :=
  [ EvSmtpNew 4;
    EvConnect mx_server 25;
    EvHelo mx_server "email-validator.example.com";
    EvMail mx_server "test@example.com";
    EvRcpt mx_server email;
    EvQuit mx_server;
    EvClose ].

(** The calls [validate_email] makes. *)
Definition validation_trace (env : Env) (email : string)
    (smtp_check_enabled : bool) : list event :=
  if bool_decide (domain_of email ∈ BLACKLISTED_DOMAINS env) then []
  else if negb (is_valid_tld (tld_iteration env) (domain_of email)) then []
  else
    EvResolve nameservers (domain_of email) "MX"
    :: match mx_result (dns_mx env (domain_of email)) with
       | Some (mx_server :: others) =>
           if smtp_check_enabled
           then probe_trace env email (mx_server :: others)
           else []
       | _ => []
       end.

Module Files.

(** A blacklist file with blank lines, padding and mixed case. *)
Definition listing : FileSystem :=
  {| path_exists := fun _ => true;
     read_text := fun _ =>
       Lines ["example.org"; ""; "  Spam.Test  "; "   "; "mailinator.com"] |}.

Definition missing : FileSystem :=
  {| path_exists := fun _ => false;
     read_text := fun _ => ReadError OSError "" |}.

End Files.

(** ** Descriptions used in the further statements *)

(** The mailbox name [is_role_based] looks up in [ROLE_BASED_USERS]. *)
Definition role_key (email : string) : string :=
  Py.remove_char "."
    (Py.first (Py.split "+" (Py.lower (Py.first (Py.split "@" email))))).

(** The environment of a process started on file system [fs]: the blacklist
    is the set [load_blacklist(BLACKLIST_FILE)] returned at import time. *)
Definition started (fs : FileSystem) (env : Env) : Env :=
  {| BLACKLISTED_DOMAINS :=
       match (load_blacklist fs BLACKLIST_FILE).1 with
       | Return domains => domains
       | Raise _ => ∅
       end;
     tld_iteration := tld_iteration env;
     dns_mx := dns_mx env;
     smtp_init := smtp_init env;
     smtp_server := smtp_server env |}.
(** * Properties *)

(** ** The stable sort *)

Section SortingFacts.
Context {A K : Type} (key : A -> K) (before : K -> K -> bool).

Let precedes (x y : A) : Prop := before (key x) (key y) = true.

Lemma insert_stable_Permutation (x : A) (l : list A) :
  Py.insert_stable key before x l ≡ₚ x :: l.
Proof.
  induction l as [|y l IH]; simpl; [done|].
  destruct (before (key x) (key y)); [done|].
  rewrite IH. apply Permutation_swap.
Qed.

Lemma sorted_Permutation (l : list A) : Py.sorted key before l ≡ₚ l.
Proof.
  induction l as [|x l IH]; simpl; [done|].
  rewrite insert_stable_Permutation. by rewrite IH.
Qed.

Hypothesis before_total : forall a b, before a b = false -> before b a = true.
Hypothesis before_trans :
  forall a b c, before a b = true -> before b c = true -> before a c = true.

Lemma insert_stable_StronglySorted (x : A) (l : list A) :
  StronglySorted precedes l ->
  StronglySorted precedes (Py.insert_stable key before x l).
Proof.
  induction 1 as [|y l Hl IH Hy]; simpl.
  - repeat constructor.
  - destruct (before (key x) (key y)) eqn:Hxy.
    + constructor; [by constructor|].
      constructor; [exact Hxy|].
      eapply Forall_impl; [exact Hy|].
      intros z Hz. unfold precedes in *. eauto.
    + constructor; [exact IH|].
      rewrite insert_stable_Permutation.
      constructor; [|exact Hy].
      unfold precedes. auto.
Qed.

Lemma sorted_StronglySorted (l : list A) :
  StronglySorted precedes (Py.sorted key before l).
Proof.
  induction l as [|x l IH]; simpl; [constructor|].
  by apply insert_stable_StronglySorted.
Qed.

(** Stability: elements with one key keep their input order. *)
Context `{EqDecision K}.
Hypothesis before_refl : forall a, before a a = true.

Lemma insert_stable_filter (k : K) (x : A) (l : list A) :
  filter (fun a => key a = k) (Py.insert_stable key before x l)
  = filter (fun a => key a = k) (x :: l).
Proof.
  induction l as [|y l IH]; simpl; [done|].
  destruct (before (key x) (key y)) eqn:Hxy; [done|].
  rewrite filter_cons, IH, !filter_cons.
  destruct (decide (key y = k)) as [Hy|Hy], (decide (key x = k)) as [Hx|Hx];
    try done.
  rewrite Hx, Hy, before_refl in Hxy. done.
Qed.

Lemma sorted_stable (k : K) (l : list A) :
  filter (fun a => key a = k) (Py.sorted key before l)
  = filter (fun a => key a = k) l.
Proof.
  induction l as [|x l IH]; simpl; [done|].
  rewrite insert_stable_filter, !filter_cons, IH. done.
Qed.
End SortingFacts.

(** Sorting commutes with relabelling the elements. *)
Lemma sorted_map {A B K : Type} (key : B -> K) (before : K -> K -> bool)
    (g : A -> B) (l : list A) :
  Py.sorted key before (map g l) = map g (Py.sorted (fun a => key (g a)) before l).
Proof.
  induction l as [|x l IH]; simpl; [done|].
  rewrite IH. generalize (Py.sorted (fun a => key (g a)) before l) as s.
  induction s as [|y s IHs]; simpl; [done|].
  destruct (before (key (g x)) (key (g y))); simpl; [done|].
  by rewrite IHs.
Qed.

Lemma ascending_total (a b : Z) : Py.ascending a b = false -> Py.ascending b a = true.
Proof. unfold Py.ascending. lia. Qed.

Lemma ascending_trans (a b c : Z) :
  Py.ascending a b = true -> Py.ascending b c = true -> Py.ascending a c = true.
Proof. unfold Py.ascending. lia. Qed.

Lemma descending_total (a b : Z) : Py.descending a b = false -> Py.descending b a = true.
Proof. unfold Py.descending. lia. Qed.

Lemma descending_trans (a b c : Z) :
  Py.descending a b = true -> Py.descending b c = true -> Py.descending a c = true.
Proof. unfold Py.descending. lia. Qed.

(** ** The TLD check *)

Lemma tld_loop_existsb (domain : string) (candidates : list string) :
  (tld_loop domain candidates).1 = existsb (tld_accepts domain) candidates.
Proof.
  induction candidates as [|tld rest IH]; [done|].
  cbn [tld_loop existsb]. unfold tld_accepts at 1.
  destruct (Py.endswith domain tld); cbn [andb orb].
  - destruct (0 <? Py.len domain - Py.len tld); cbn [orb fst]; [done|].
    by destruct (tld_loop domain rest).
  - by destruct (tld_loop domain rest).
Qed.

Lemma existsb_Permutation {A} (f : A -> bool) (l l' : list A) :
  l ≡ₚ l' -> existsb f l = existsb f l'.
Proof.
  induction 1 as [|x l l' _ IH|x y l|l l' l'' _ IH1 _ IH2]; simpl.
  - done.
  - by rewrite IH.
  - by destruct (f x), (f y).
  - by rewrite IH1.
Qed.

(** The verdict does not depend on the order in which the set is iterated. *)
Lemma is_valid_tld_order_irrelevant (tld_list : list string) (domain : string) :
  tld_list ≡ₚ VALID_TLDS_literal ->
  is_valid_tld tld_list domain = existsb (tld_accepts domain) VALID_TLDS_literal.
Proof.
  intros Hperm. unfold is_valid_tld, is_valid_tld_run, sorted_tlds.
  rewrite tld_loop_existsb. apply existsb_Permutation.
  by rewrite sorted_Permutation.
Qed.

Lemma sorted_tlds_longest_first (tld_list : list string) :
  StronglySorted (fun earlier later => Py.len later <= Py.len earlier)
    (sorted_tlds tld_list).
Proof.
  unfold sorted_tlds.
  pose proof (sorted_StronglySorted Py.len Py.descending
                descending_total descending_trans tld_list) as Hs.
  induction Hs as [|x l _ IH Hx]; constructor; [exact IH|].
  eapply Forall_impl; [exact Hx|].
  intros y Hy. simpl in Hy. unfold Py.descending in Hy. lia.
Qed.

(** ** Exceptions *)

Lemma Exception_in_mro (e : exn) : Exception ∈ mro e.
Proof.
  induction e; simpl; try (apply list_elem_of_In; simpl; tauto).
  by apply list_elem_of_further.
Qed.

Lemma isinstance_Exception (e : exn) : isinstance e [Exception] = true.
Proof.
  unfold isinstance. simpl. rewrite bool_decide_eq_true_2; [done|].
  apply Exception_in_mro.
Qed.

Lemma isinstance_singleton (e c : exn) :
  isinstance e [c] = bool_decide (c ∈ mro e).
Proof. unfold isinstance. simpl. by rewrite orb_false_r. Qed.

(** ** Running computations *)

Lemma run_bind {S A B} (m : io S A) (k : A -> io S B) (s : S) :
  (x ← m; k x) s =
  match m s with
  | (Return a, s1, t1) => let '(r, s2, t2) := k a s1 in (r, s2, (t1 ++ t2)%list)
  | (Raise e, s1, t1) => (Raise e, s1, t1)
  end.
Proof. reflexivity. Qed.

Lemma for_each_pure {S A B} (f : A -> io S B) (g : A -> B) (l : list A) (s : S) :
  (forall x, x ∈ l -> f x s = (Return (g x), s, [])) ->
  for_each f l s = (Return (map g l), s, []).
Proof.
  induction l as [|x l IH]; intros Hf; simpl; [done|].
  rewrite run_bind, Hf by apply list_elem_of_here.
  rewrite run_bind, IH; [done|].
  intros y Hy. apply Hf. by apply list_elem_of_further.
Qed.

(** ** MX resolution *)

Section Resolver.
Variable env : Env.

Lemma preference_key_found (mx_answers : list MxAnswer) (answer : MxAnswer) :
  answer ∈ mx_answers ->
  preference_key mx_answers (host_of answer) tt
  = (Return (first_preference mx_answers (host_of answer)), tt, []).
Proof.
  intros Hin. unfold preference_key, first_preference, host_of.
  match goal with
  | |- context [filter ?P mx_answers] =>
      assert (answer ∈ filter P mx_answers) as Habs
        by (by apply list_elem_of_filter);
      destruct (filter P mx_answers) as [|found others]
  end.
  - by apply elem_of_nil in Habs.
  - reflexivity.
Qed.

(** The sort key is found for every host of the answer, so computing the
    keys never raises [IndexError]. *)
Lemma sort_keys_found (mx_answers : list MxAnswer) :
  for_each (preference_key mx_answers) (map host_of mx_answers) tt
  = (Return (map (first_preference mx_answers) (map host_of mx_answers)), tt, []).
Proof.
  apply for_each_pure. intros x Hx.
  apply list_elem_of_fmap in Hx as (answer & -> & Hin).
  by apply preference_key_found.
Qed.

(** What one lookup does: a single query, and the value of [mx_result]. *)
Lemma sync_mx_lookup_run (domain : string) :
  sync_mx_lookup env domain tt
  = (Return (mx_result (dns_mx env domain)), tt,
     [EvResolve nameservers domain "MX"]).
Proof.
  unfold sync_mx_lookup, try_except.
  rewrite run_bind. unfold extern at 1.
  destruct (dns_mx env domain) as [mx_answers|e]; cbn [find fst snd mx_result].
  - unfold list_sort_key. rewrite !run_bind.
    change (map (fun answer => Py.rstrip "." (exchange answer)) mx_answers)
      with (map host_of mx_answers).
    rewrite sort_keys_found. reflexivity.
  - rewrite isinstance_Exception.
    destruct (isinstance e [NXDOMAIN]); [reflexivity|].
    destruct (isinstance e [NoAnswer]); reflexivity.
Qed.

Lemma mx_order_length (mx_answers : list MxAnswer) :
  List.length (mx_order mx_answers) = List.length mx_answers.
Proof.
  unfold mx_order. rewrite length_map.
  rewrite (Permutation_length (sorted_Permutation _ _ _)).
  rewrite length_zip_with, !length_map. lia.
Qed.

Example resolver_faults :
  mx_result (Raise NXDOMAIN) = None /\
  mx_result (Raise NoAnswer) = Some [] /\
  mx_result (Raise LifetimeTimeout) = None /\
  mx_result (Raise NoNameservers) = None /\
  mx_result (Raise ConnectionResetError) = None.
Proof. repeat split. Qed.

(** C7. MX resolution always returns a value, never an exception, after
    exactly one query, and the value encodes the outcome the classification
    rules give: a name-does-not-exist response is Absent, a response without
    MX records is NoRoute, a response with records is Routed, every other
    resolver error is Absent. *)
Theorem get_mx_records_classifies (domain : string) :
  exists mx_records,
    get_mx_records env domain tt
    = (Return mx_records, tt, [EvResolve nameservers domain "MX"]) /\
    kind_of mx_records = spec_resolution (dns_mx env domain).
Proof.
  exists (mx_result (dns_mx env domain)). split.
  - apply sync_mx_lookup_run.
  - destruct (dns_mx env domain) as [mx_answers|e]; cbn [mx_result spec_resolution].
    + pose proof (mx_order_length mx_answers) as Hlen.
      destruct mx_answers, (mx_order _); simpl in *; done.
    + rewrite !isinstance_singleton.
      destruct (bool_decide (NXDOMAIN ∈ mro e)); [done|].
      destruct (bool_decide (NoAnswer ∈ mro e)); done.
Qed.

End Resolver.

(** ** Order of the MX hosts *)

Lemma zip_map_pair {A B C} (f : A -> B) (g : A -> C) (l : list A) :
  zip (map f l) (map g l) = map (fun a => (f a, g a)) l.
Proof. induction l as [|a l IH]; simpl; [done|]. by rewrite IH. Qed.

(** With pairwise distinct host names, the sort key of a host is the
    preference of its own record. *)
Lemma first_preference_own (mx_answers : list MxAnswer) (answer : MxAnswer) :
  NoDup (map host_of mx_answers) ->
  answer ∈ mx_answers ->
  first_preference mx_answers (host_of answer) = preference answer.
Proof.
  unfold first_preference.
  induction mx_answers as [|b l IH]; intros Hnodup Hin.
  - by apply elem_of_nil in Hin.
  - simpl in Hnodup. apply NoDup_cons in Hnodup as [Hb Hl].
    rewrite filter_cons.
    apply elem_of_cons in Hin as [->|Hin].
    + rewrite decide_True by done. reflexivity.
    + rewrite decide_False; [by apply IH|].
      intros Heq. apply Hb. rewrite Heq.
      apply list_elem_of_fmap. by exists answer.
Qed.

(** When no host name occurs twice in the answer, the returned list is the
    one the specification words: stable ascending order of preference. *)
Lemma mx_order_distinct_hosts (mx_answers : list MxAnswer) :
  NoDup (map host_of mx_answers) ->
  mx_order mx_answers = hosts_by_preference mx_answers.
Proof.
  intros Hnodup. unfold mx_order, hosts_by_preference.
  rewrite map_map, zip_map_pair.
  rewrite (map_ext_in _ (fun a => (preference a, host_of a))).
  - rewrite (sorted_map fst Py.ascending
               (fun a => (preference a, host_of a)) mx_answers).
    rewrite map_map. reflexivity.
  - intros a Ha. f_equal.
    apply first_preference_own; [done|]. by apply list_elem_of_In.
Qed.

Example mx_order_two_records :
  get_mx_records (Scenario.world [] (Return Scenario.two_records) Scenario.friendly)
    "example.com" tt
  = (Return (Some ["mx1"; "mx2"]), tt, [EvResolve nameservers "example.com" "MX"]).
Proof. vm_compute. reflexivity. Qed.

(** C6. An answer in which the exchange mx1 appears with preferences 20 and
    10 around mx2 with preference 15: the service returns mx2 first, whereas
    the records in ascending order of preference start with mx1. *)
Theorem mx_order_duplicate_exchange :
  get_mx_records
    (Scenario.world [] (Return Scenario.duplicate_exchange) Scenario.friendly)
    "example.com" tt
  = (Return (Some ["mx2.example.com"; "mx1.example.com"; "mx1.example.com"]),
     tt, [EvResolve nameservers "example.com" "MX"]) /\
  hosts_by_preference Scenario.duplicate_exchange
  = ["mx1.example.com"; "mx2.example.com"; "mx1.example.com"].
Proof. split; vm_compute; reflexivity. Qed.

(** ** The SMTP probe *)

Section Probe.
Variable env : Env.

Lemma smtp_dialogue_run (email mx_server : string) :
  exists conn trace,
    smtp_dialogue env email mx_server None
    = (dialogue env mx_server email, conn, trace).
Proof.
  unfold smtp_dialogue, dialogue, SMTP_new, SMTP_connect, SMTP_helo, SMTP_mail,
    SMTP_rcpt, on_socket, mbind, io_mbind, bind, extern, put, get, ret.
  destruct (smtp_init env) as [[]|e]; [|by eauto].
  destruct (srv_connect (smtp_server env mx_server)) as [banner|e]; [|by eauto].
  destruct (srv_helo (smtp_server env mx_server) _) as [greeting|e]; [|by eauto].
  destruct (srv_mail (smtp_server env mx_server) _) as [[code text]|e]; [|by eauto].
  destruct (code =? 250); cbn [negb]; [|by eauto].
  destruct (srv_rcpt (smtp_server env mx_server) email) as [[code' text']|e];
    [|by eauto].
  destruct (code' =? 250); [by eauto|].
  destruct (bool_decide (code' ∈ [550; 553])); by eauto.
Qed.

Lemma smtp_cleanup_returns (conn : option SMTP) :
  exists conn' trace, smtp_cleanup env conn = (Return tt, conn', trace).
Proof.
  unfold smtp_cleanup, SMTP_quit, SMTP_close, on_socket, try_except,
    mbind, io_mbind, bind, extern, put, get, ret, raise.
  destruct conn as [[[host|]]|]; cbn [find fst snd]; [| |by eauto].
  - destruct (srv_quit (smtp_server env host)) as [farewell|e]; [by eauto|].
    rewrite isinstance_Exception. by eauto.
  - rewrite isinstance_Exception. by eauto.
Qed.

(** The probe of a non-empty host list always returns, and what it returns
    is decided by the dialogue with the first host alone. *)
Lemma check_smtp_run (email mx_server : string) (rest : list string)
    (conn0 : option SMTP) :
  exists conn trace,
    check_smtp env email (mx_server :: rest) conn0
    = (Return (probe_verdict env mx_server email), conn, trace).
Proof.
  destruct (smtp_dialogue_run email mx_server) as (conn1 & trace1 & Hd).
  unfold check_smtp, try_finally, try_except, mbind, io_mbind, bind,
    getitem0, put, ret.
  rewrite Hd. unfold probe_verdict.
  destruct (dialogue env mx_server email) as [verdict|e].
  - destruct (smtp_cleanup_returns conn1) as (conn2 & trace2 & ->). by eauto.
  - unfold smtp_faults, fault_verdict, ret. cbn [find fst snd].
    destruct (isinstance e [socket_timeout; TimeoutError]);
      [|destruct (isinstance e [SMTPConnectError]);
        [|destruct (isinstance e [SMTPServerDisconnected; ConnectionResetError; socket_error]);
          [|rewrite isinstance_Exception]]];
      cbn [fst snd];
      destruct (smtp_cleanup_returns conn1) as (conn2 & trace2 & ->); by eauto.
Qed.

End Probe.

Section ProbeReplies.
Variable env : Env.

Lemma probe_outcome_run (email mx_server : string) (rest : list string) :
  probe_outcome env email (mx_server :: rest)
  = Return (probe_verdict env mx_server email).
Proof.
  unfold probe_outcome.
  destruct (check_smtp_run env email mx_server rest None) as (conn & trace & ->).
  reflexivity.
Qed.

(** C4 (amended). In a session that reaches the envelope, every reply to
    MAIL FROM other than 250 (so every non-2xx reply) gives refused for the
    sender; after a 250, the reply to RCPT TO gives success for code 250
    exactly, refused with the mailbox reason for 550 and 553, and refused
    with a message that names the code for every other code, other 2xx codes
    included. *)
Theorem check_smtp_reply_codes (email mx_server : string) (rest : list string)
    (banner greeting : reply) :
  smtp_init env = Return tt ->
  srv_connect (smtp_server env mx_server) = Return banner ->
  srv_helo (smtp_server env mx_server) "email-validator.example.com"
    = Return greeting ->
  (forall code text,
      srv_mail (smtp_server env mx_server) "test@example.com" = Return (code, text) ->
      code <> 250 ->
      probe_outcome env email (mx_server :: rest)
      = Return ("refused", "Server refused MAIL FROM command.")) /\
  (forall text code text',
      srv_mail (smtp_server env mx_server) "test@example.com" = Return (250, text) ->
      srv_rcpt (smtp_server env mx_server) email = Return (code, text') ->
      (code = 250 ->
       probe_outcome env email (mx_server :: rest)
       = Return ("success",
                 "The mail server confirmed the email address exists (Code 250).")) /\
      (code = 550 \/ code = 553 ->
       probe_outcome env email (mx_server :: rest)
       = Return ("refused",
                 "Mailbox does not exist (550/553) or server explicitly rejected the address.")) /\
      (code <> 250 -> code <> 550 -> code <> 553 ->
       probe_outcome env email (mx_server :: rest)
       = Return ("refused",
                 "Server rejected the recipient with code " +:+ Py.str code +:+ "."))).
Proof.
  intros Hinit Hconnect Hhelo.
  rewrite probe_outcome_run. unfold probe_verdict, dialogue.
  rewrite Hinit, Hconnect, Hhelo. split.
  - intros code text -> Hcode.
    destruct (Z.eqb_spec code 250) as [?|_]; [done|]. reflexivity.
  - intros text code text' -> ->. cbn [Z.eqb negb Pos.eqb].
    repeat split.
    + intros ->. reflexivity.
    + intros [-> | ->]; reflexivity.
    + intros H250 H550 H553.
      destruct (Z.eqb_spec code 250) as [?|_]; [done|].
      rewrite bool_decide_eq_false_2; [reflexivity|].
      rewrite !elem_of_cons, elem_of_nil. tauto.
Qed.

End ProbeReplies.

Lemma check_smtp_reply_codes_witness :
  smtp_init (Scenario.rcpt_world 450) = Return tt /\
  srv_connect (smtp_server (Scenario.rcpt_world 450) "mx.example.com")
    = Return (220, "") /\
  srv_helo (smtp_server (Scenario.rcpt_world 450) "mx.example.com")
      "email-validator.example.com" = Return (250, "") /\
  probe_outcome (Scenario.rcpt_world 450) "user@example.com" ["mx.example.com"]
  = Return ("refused", "Server rejected the recipient with code 450.").
Proof.
  split; [reflexivity|]. split; [reflexivity|]. split; [reflexivity|].
  destruct (check_smtp_reply_codes (Scenario.rcpt_world 450)
              "user@example.com" "mx.example.com" [] (220, "") (250, "")
              eq_refl eq_refl eq_refl) as [_ Hrcpt].
  destruct (Hrcpt "" 450 "" eq_refl eq_refl) as (_ & _ & Hother).
  apply Hother; discriminate.
Defined.

(** C4 (counterexample to the reading "every 2xx reply is accepted"). 251 is
    a 2xx reply to RCPT TO, and the probe reports refused, not success. *)
Lemma rcpt_251_is_refused :
  srv_rcpt (smtp_server (Scenario.rcpt_world 251) "mx.example.com")
    "user@example.com" = Return (251, "") /\
  200 <= 251 < 300 /\
  probe_outcome (Scenario.rcpt_world 251) "user@example.com" ["mx.example.com"]
  = Return ("refused", "Server rejected the recipient with code 251.") /\
  probe_outcome (Scenario.rcpt_world 251) "user@example.com" ["mx.example.com"]
  <> Return ("success",
             "The mail server confirmed the email address exists (Code 250).").
Proof. repeat split; try lia; vm_compute; congruence. Qed.

(** C8. A host that refuses the TCP connection on port 25: [connect] raises
    [ConnectionRefusedError], an [OSError] that is not an
    [SMTPConnectError], and the probe reports timeout with the
    disconnected message, not refused with the could-not-connect message. *)
Theorem refused_connection_reported_as_timeout :
  srv_connect (smtp_server Scenario.closed_port "mx.example.com")
    = Raise ConnectionRefusedError /\
  check_smtp Scenario.closed_port "user@example.com" ["mx.example.com"] None
  = (Return ("timeout",
             "The mail server or network unexpectedly disconnected during validation. Status is uncertain."),
     Some {| sock := None |},
     [EvSmtpNew 4; EvConnect "mx.example.com" 25]).
Proof. split; vm_compute; reflexivity. Qed.

(** ** Classification of faults *)

Lemma isinstance_app (e : exn) (l1 l2 : list exn) :
  isinstance e (l1 ++ l2) = isinstance e l1 || isinstance e l2.
Proof. unfold isinstance. apply existsb_app. Qed.

Lemma fault_verdict_unknown_iff (mx_server : string) (e : exn) :
  (fault_verdict mx_server e).1 = "unknown" <-> isinstance e anticipated = false.
Proof.
  change anticipated
    with ([socket_timeout; TimeoutError] ++ [SMTPConnectError]
          ++ [SMTPServerDisconnected; ConnectionResetError; socket_error])%list.
  rewrite !isinstance_app. unfold fault_verdict.
  destruct (isinstance e [socket_timeout; TimeoutError]),
    (isinstance e [SMTPConnectError]),
    (isinstance e [SMTPServerDisconnected; ConnectionResetError; socket_error]);
    cbn [fst orb]; split; congruence.
Qed.

(** A fault that is not an [OSError] matches none of the first three
    clauses. *)
Lemma unanticipated_not_OSError (e : exn) :
  isinstance e anticipated = false -> OSError ∉ mro e.
Proof.
  unfold isinstance, anticipated, socket_error. cbn [existsb].
  intros H Hin. apply (bool_decide_eq_true_2 _) in Hin.
  rewrite Hin in H. by rewrite !orb_true_r in H.
Qed.

(** The clauses on the classes they name, for every host. *)
Lemma fault_verdict_by_class (mx_server : string) :
  fault_verdict mx_server TimeoutError
  = ("timeout", "Connection to the mail server (" +:+ mx_server +:+ ") timed out.") /\
  fault_verdict mx_server SMTPConnectError
  = ("refused",
     "Could not connect to the mail server (" +:+ mx_server +:+ ") on port 25.") /\
  fault_verdict mx_server SMTPServerDisconnected
  = ("timeout",
     "The mail server or network unexpectedly disconnected during validation. Status is uncertain.") /\
  fault_verdict mx_server ConnectionResetError
  = ("timeout",
     "The mail server or network unexpectedly disconnected during validation. Status is uncertain.") /\
  fault_verdict mx_server ConnectionRefusedError
  = ("timeout",
     "The mail server or network unexpectedly disconnected during validation. Status is uncertain.") /\
  (forall e, isinstance e anticipated = false ->
             fault_verdict mx_server e
             = ("unknown", "An unexpected critical error occurred.")).
Proof.
  repeat split; try reflexivity.
  intros e.
  change anticipated
    with ([socket_timeout; TimeoutError] ++ [SMTPConnectError]
          ++ [SMTPServerDisconnected; ConnectionResetError; socket_error])%list.
  rewrite !isinstance_app. unfold fault_verdict.
  destruct (isinstance e [socket_timeout; TimeoutError]),
    (isinstance e [SMTPConnectError]),
    (isinstance e [SMTPServerDisconnected; ConnectionResetError; socket_error]);
    cbn [orb]; congruence.
Qed.

Lemma dialogue_Return_status (env : Env) (mx_server email : string)
    (verdict : string * string) :
  dialogue env mx_server email = Return verdict ->
  verdict.1 = "success" \/ verdict.1 = "refused".
Proof.
  unfold dialogue.
  destruct (smtp_init env); [|done].
  destruct (srv_connect _); [|done].
  destruct (srv_helo _ _); [|done].
  destruct (srv_mail _ _) as [[code text]|]; [|done].
  destruct (negb (code =? 250)); [intros [= <-]; by right|].
  destruct (srv_rcpt _ _) as [[code' text']|]; [|done].
  destruct (code' =? 250); [intros [= <-]; by left|].
  destruct (bool_decide _); intros [= <-]; by right.
Qed.

Lemma probe_verdict_status (env : Env) (mx_server email : string) :
  (probe_verdict env mx_server email).1 ∈ ["success"; "refused"; "timeout"; "unknown"] /\
  ((probe_verdict env mx_server email).1 = "unknown" <->
   exists e, dialogue env mx_server email = Raise e /\
             isinstance e anticipated = false).
Proof.
  unfold probe_verdict.
  destruct (dialogue env mx_server email) as [verdict|e] eqn:Hd.
  - apply dialogue_Return_status in Hd as [-> | ->]; split.
    + set_solver.
    + split; [done|]. by intros (e & ? & _).
    + set_solver.
    + split; [done|]. by intros (e & ? & _).
  - split.
    + unfold fault_verdict.
      destruct (isinstance e [socket_timeout; TimeoutError]);
        [|destruct (isinstance e [SMTPConnectError]);
          [|destruct (isinstance e [SMTPServerDisconnected; ConnectionResetError; socket_error])]];
        cbn [fst]; set_solver.
    + rewrite fault_verdict_unknown_iff. split.
      * intros H. by exists e.
      * by intros (e' & [= <-] & H).
Qed.

(** The probe never lets an exception out, on any host list that has a first
    host. *)
Lemma check_smtp_never_raises (env : Env) (email mx_server : string)
    (rest : list string) :
  exists verdict, probe_outcome env email (mx_server :: rest) = Return verdict /\
    verdict.1 ∈ ["success"; "refused"; "timeout"; "unknown"].
Proof.
  exists (probe_verdict env mx_server email). split.
  - apply probe_outcome_run.
  - apply probe_verdict_status.
Qed.

(** ** The orchestrator *)

Lemma probe_status_allowed (status : string) :
  status ∈ ["success"; "refused"; "timeout"; "unknown"] ->
  status ∈ ["success"; "refused"; "timeout"; "skipped"; "unknown"] /\
  status <> "skipped".
Proof.
  rewrite !elem_of_cons, !elem_of_nil.
  intros [->|[->|[->|[->|[]]]]]; split; (discriminate || tauto).
Qed.

Section Orchestrator.
Variable env : Env.

(** Every call of [validate_email] returns, and returns [verdict]. *)
Lemma validate_email_run (email : string) (smtp_check_enabled : bool) :
  exists trace,
    validate_email env email smtp_check_enabled tt
    = (Return (verdict env email smtp_check_enabled), tt, trace).
Proof.
  unfold validate_email, verdict, domain_of.
  destruct (bool_decide _); [by eexists|].
  destruct (negb (is_valid_tld _ _)); [by eexists|].
  rewrite run_bind. unfold get_mx_records. rewrite sync_mx_lookup_run.
  destruct (mx_result _) as [[|mx_server others]|]; cbn [truthy];
    [by eexists| |by eexists].
  destruct smtp_check_enabled; cbn [negb].
  - rewrite !run_bind. unfold invoke.
    destruct (check_smtp_run env email mx_server others None)
      as (conn & trace & ->).
    destruct (probe_verdict env mx_server email) as [smtp_status smtp_message].
    cbn [ret ValidationResult.message ValidationResult.set_message
         ValidationResult.set_smtp_check_status].
    destruct (String.eqb _ ""); by eexists.
  - rewrite run_bind. cbn. by eexists.
Qed.

Lemma verdict_is_valid_format (email : string) (smtp_check_enabled : bool) :
  ValidationResult.is_valid_format (verdict env email smtp_check_enabled) = true.
Proof.
  unfold verdict.
  destruct (bool_decide _); [done|].
  destruct (negb _); [done|].
  destruct (mx_result _) as [[|mx_server others]|]; [done| |done].
  destruct smtp_check_enabled; [destruct (probe_verdict _ _ _)|];
    cbn [ValidationResult.message ValidationResult.set_message];
    destruct (String.eqb _ ""); done.
Qed.

Lemma verdict_smtp_check_status (email : string) (smtp_check_enabled : bool) :
  ValidationResult.smtp_check_status (verdict env email smtp_check_enabled)
  = if negb smtp_check_enabled then "skipped"
    else if stops_before_probe env email then "unknown"
    else match mx_result (dns_mx env (domain_of email)) with
         | Some (mx_server :: _) => (probe_verdict env mx_server email).1
         | _ => "unknown"
         end.
Proof.
  unfold verdict, stops_before_probe.
  destruct (bool_decide _); [by destruct smtp_check_enabled|].
  destruct (negb (is_valid_tld _ _)); [by destruct smtp_check_enabled|].
  destruct (mx_result _) as [[|mx_server others]|];
    [by destruct smtp_check_enabled| |by destruct smtp_check_enabled].
  destruct smtp_check_enabled; [destruct (probe_verdict _ _ _)|];
    cbn [ValidationResult.message ValidationResult.set_message];
    destruct (String.eqb _ ""); done.
Qed.

(** [domain_exists] is set exactly when the pipeline reaches the probe
    stage, that is when resolution is Routed. *)
Lemma verdict_domain_exists (email : string) (smtp_check_enabled : bool) :
  ValidationResult.domain_exists (verdict env email smtp_check_enabled)
  = negb (stops_before_probe env email).
Proof.
  unfold verdict, stops_before_probe.
  destruct (bool_decide _); [done|].
  destruct (negb (is_valid_tld _ _)); [done|].
  destruct (mx_result _) as [[|mx_server others]|]; [done| |done].
  destruct smtp_check_enabled; [destruct (probe_verdict _ _ _)|];
    cbn [ValidationResult.message ValidationResult.set_message];
    destruct (String.eqb _ ""); done.
Qed.

(** C10. Every call returns a result, and its [is_valid_format] is true
    whatever the address and the flag. *)
Theorem is_valid_format_always_true (email : string) (smtp_check_enabled : bool) :
  exists result trace,
    validate_email env email smtp_check_enabled tt = (Return result, tt, trace) /\
    ValidationResult.is_valid_format result = true.
Proof.
  destruct (validate_email_run email smtp_check_enabled) as [trace Hrun].
  exists (verdict env email smtp_check_enabled), trace.
  split; [exact Hrun|apply verdict_is_valid_format].
Qed.

(** C9. For an address whose domain is in the blacklist, the call returns
    with [is_blacklisted] true after an empty trace: no DNS query was issued
    and no SMTP session was opened. *)
Theorem blacklisted_domain_is_terminal (email : string) (smtp_check_enabled : bool) :
  domain_of email ∈ BLACKLISTED_DOMAINS env ->
  exists result,
    validate_email env email smtp_check_enabled tt = (Return result, tt, []) /\
    ValidationResult.is_blacklisted result = true /\
    ValidationResult.mx_records result = None.
Proof.
  intros Hin. unfold validate_email. fold (domain_of email).
  rewrite bool_decide_eq_true_2 by exact Hin.
  eexists. split; [reflexivity|]. split; reflexivity.
Qed.

(** C2 (amended). Every call returns a result whose [smtp_check_status] is
    one of success, refused, timeout, skipped and unknown; it is skipped
    exactly when probing is disabled; and it is unknown exactly when probing
    is enabled and either the pipeline ends before the probe stage or the
    dialogue with the first host raises an exception of none of the
    anticipated classes. *)
Theorem smtp_check_status_values (email : string) (smtp_check_enabled : bool) :
  exists result trace,
    validate_email env email smtp_check_enabled tt = (Return result, tt, trace) /\
    ValidationResult.smtp_check_status result
      ∈ ["success"; "refused"; "timeout"; "skipped"; "unknown"] /\
    (ValidationResult.smtp_check_status result = "skipped"
     <-> smtp_check_enabled = false) /\
    (ValidationResult.smtp_check_status result = "unknown"
     <-> smtp_check_enabled = true /\
         (stops_before_probe env email = true \/
          exists mx_server others e,
            mx_result (dns_mx env (domain_of email)) = Some (mx_server :: others) /\
            dialogue env mx_server email = Raise e /\
            isinstance e anticipated = false)).
Proof.
  destruct (validate_email_run email smtp_check_enabled) as [trace Hrun].
  exists (verdict env email smtp_check_enabled), trace.
  split; [exact Hrun|].
  rewrite verdict_smtp_check_status.
  destruct smtp_check_enabled; cbn [negb].
  2:{ split; [set_solver|]. split; [done|]. split; [done|]. by intros [? _]. }
  destruct (stops_before_probe env email) eqn:Hstop.
  { split; [set_solver|]. split; [done|]. split; [|done]. intros _. by auto. }
  assert (exists mx_server others,
             mx_result (dns_mx env (domain_of email)) = Some (mx_server :: others))
    as (mx_server & others & Hmx).
  { unfold stops_before_probe in Hstop.
    apply orb_false_iff in Hstop as [_ Hstop].
    destruct (mx_result _) as [[|mx_server others]|]; try done. by eauto. }
  rewrite Hmx.
  destruct (probe_verdict_status env mx_server email) as [Hin Hunknown].
  destruct (probe_status_allowed _ Hin) as [Hfive Hskip].
  split; [exact Hfive|]. split.
  - split; [|done]. intros Hs. by destruct Hskip.
  - rewrite Hunknown. split.
    + intros (e & Hd & He). split; [done|]. right. by exists mx_server, others, e.
    + intros [_ [?|(mx_server' & others' & e & [= <- <-] & Hd & He)]]; [done|].
      by exists e.
Qed.

End Orchestrator.

(** C2 (counterexample to "the final status is never unknown"). With
    probing enabled, a blacklisted domain gives a final result whose status
    is unknown. *)
Lemma blacklisted_status_is_unknown :
  exists result,
    validate_email (Scenario.world ["spam.test"] (Return []) Scenario.friendly)
      "user@spam.test" true tt = (Return result, tt, []) /\
    ValidationResult.smtp_check_status result = "unknown" /\
    ValidationResult.smtp_check_status result
      ∉ ["success"; "refused"; "timeout"; "skipped"].
Proof.
  eexists. split; [vm_compute; reflexivity|]. split; [reflexivity|].
  cbn. rewrite !elem_of_cons, elem_of_nil. intros [?|[?|[?|[?|[]]]]]; discriminate.
Qed.

Lemma blacklisted_domain_is_terminal_witness :
  domain_of "user@SPAM.test"
    ∈ BLACKLISTED_DOMAINS (Scenario.world ["spam.test"] (Return []) Scenario.friendly) /\
  exists result,
    validate_email (Scenario.world ["spam.test"] (Return []) Scenario.friendly)
      "user@SPAM.test" true tt = (Return result, tt, []) /\
    ValidationResult.is_blacklisted result = true /\
    ValidationResult.mx_records result = None.
Proof.
  assert (domain_of "user@SPAM.test"
            ∈ BLACKLISTED_DOMAINS
                (Scenario.world ["spam.test"] (Return []) Scenario.friendly))
    as Hin by (vm_compute; set_solver).
  split; [exact Hin|].
  exact (blacklisted_domain_is_terminal _ "user@SPAM.test" true Hin).
Defined.

(** C1. Resolution that ends in [NoAnswer] is NoRoute, the message of the
    result says that the domain exists, and [domain_exists] is false. *)
Theorem no_route_reports_domain_missing :
  spec_resolution (Raise NoAnswer) = NoRoute /\
  validate_email (Scenario.world [] (Raise NoAnswer) Scenario.friendly)
    "user@example.com" false tt
  = (Return
       (ValidationResult.make true false false "skipped" false
          "The domain 'example.com' exists, but no Mail Exchange (MX) records were found."
          None),
     tt, [EvResolve nameservers "example.com" "MX"]).
Proof. split; vm_compute; reflexivity. Qed.

(** * Further properties of the service *)

(** ** Text lemmas *)

Lemma lower_char_idempotent (c : ascii) :
  Py.lower_char (Py.lower_char c) = Py.lower_char c.
Proof. destruct c as [[] [] [] [] [] [] [] []]; reflexivity. Qed.

Lemma lower_char_at (c : ascii) :
  Ascii.eqb (Py.lower_char c) "@" = Ascii.eqb c "@".
Proof. destruct c as [[] [] [] [] [] [] [] []]; reflexivity. Qed.

Lemma lower_char_plus (c : ascii) :
  Ascii.eqb (Py.lower_char c) "+" = Ascii.eqb c "+".
Proof. destruct c as [[] [] [] [] [] [] [] []]; reflexivity. Qed.

Lemma isspace_lower_char (c : ascii) :
  py_isspace (Py.lower_char c) = py_isspace c.
Proof. destruct c as [[] [] [] [] [] [] [] []]; reflexivity. Qed.

Lemma lower_idempotent (s : string) : Py.lower (Py.lower s) = Py.lower s.
Proof.
  induction s as [|c s IH]; simpl; [done|].
  by rewrite lower_char_idempotent, IH.
Qed.

Lemma lower_app (a b : string) : Py.lower (a +:+ b) = Py.lower a +:+ Py.lower b.
Proof. induction a as [|c a IH]; simpl; [done|]. by rewrite IH. Qed.

Lemma split_nonempty (sep : ascii) (s : string) : Py.split sep s <> [].
Proof.
  induction s as [|c s IH]; simpl; [done|].
  destruct (Ascii.eqb c sep); [done|]. by destruct (Py.split sep s).
Qed.

(** Lower-casing commutes with splitting at a character that lower-casing
    neither produces nor removes. *)
Lemma split_lower (sep : ascii) (s : string) :
  (forall c, Ascii.eqb (Py.lower_char c) sep = Ascii.eqb c sep) ->
  Py.split sep (Py.lower s) = map Py.lower (Py.split sep s).
Proof.
  intros Hsep. induction s as [|c s IH]; simpl; [done|].
  rewrite Hsep, IH. destruct (Ascii.eqb c sep); [done|].
  pose proof (split_nonempty sep s). by destruct (Py.split sep s).
Qed.


Lemma final_map_lower (l : list string) :
  Py.final (map Py.lower l) = Py.lower (Py.final l).
Proof.
  unfold Py.final. induction l as [|x l IH]; [done|].
  destruct l as [|y l]; [done|]. exact IH.
Qed.

(** The first field of a split: up to the first separator. *)
Lemma first_split_app (sep : ascii) (a b : string) :
  (forall c, c ∈ list_ascii_of_string a -> c <> sep) ->
  Py.first (Py.split sep (a +:+ b)) = a +:+ Py.first (Py.split sep b).
Proof.
  induction a as [|c a IH]; intros Hfree; [done|].
  change (String c a +:+ b) with (String c (a +:+ b)).
  change (String c a +:+ Py.first (Py.split sep b))
    with (String c (a +:+ Py.first (Py.split sep b))).
  cbn [Py.split].
  destruct (Ascii.eqb_spec c sep) as [->|_].
  - exfalso. apply (Hfree sep); [|done]. simpl. apply list_elem_of_here.
  - destruct (Py.split sep (a +:+ b)) as [|piece pieces] eqn:Hsplit;
      [by apply split_nonempty in Hsplit|].
    unfold Py.first at 1. cbn [hd]. f_equal.
    rewrite <- IH; [done|].
    intros c' Hc'. apply Hfree. simpl. by apply list_elem_of_further.
Qed.

Lemma first_split_sep (sep : ascii) (b : string) :
  Py.first (Py.split sep (String sep b)) = "".
Proof. simpl. by rewrite Ascii.eqb_refl. Qed.

Lemma first_split_other (sep c : ascii) (s : string) :
  c <> sep ->
  Py.first (Py.split sep (String c s)) = String c (Py.first (Py.split sep s)).
Proof.
  intros Hc. cbn [Py.split].
  destruct (Ascii.eqb_spec c sep) as [?|_]; [done|].
  pose proof (split_nonempty sep s). by destruct (Py.split sep s).
Qed.

Lemma append_empty_r (s : string) : s +:+ "" = s.
Proof.
  induction s as [|c s IH]; [done|].
  change (String c s +:+ "") with (String c (s +:+ "")). by rewrite IH.
Qed.

(** ** Role-based addresses *)

Lemma is_role_based_plus_or_at (role rest : string) (sep : ascii) :
  role ∈ ROLE_BASED_USERS ->
  sep = "+"%char \/ sep = "@"%char ->
  is_role_based (role +:+ String sep rest) = true.
Proof.
  intros Hrole Hsep.
  assert (role ∈ ["admin"; "info"; "support"; "sales"; "contact"; "webmaster";
                  "postmaster"; "abuse"; "hostmaster"]) as Hin
    by (unfold ROLE_BASED_USERS in Hrole; by apply elem_of_list_to_set in Hrole).
  assert (forall c, c ∈ list_ascii_of_string role -> c <> "@"%char /\ c <> "+"%char)
    as Hfree.
  { intros c Hc. rewrite !elem_of_cons, elem_of_nil in Hin.
    destruct Hin as [->|[->|[->|[->|[->|[->|[->|[->|[->|[]]]]]]]]]];
      simpl in Hc; rewrite ?elem_of_cons, elem_of_nil in Hc;
      repeat (destruct Hc as [->|Hc]; [split; discriminate|]); done. }
  assert (Py.lower role = role /\ Py.remove_char "." role = role) as [Hlow Hdot].
  { rewrite !elem_of_cons, elem_of_nil in Hin.
    destruct Hin as [->|[->|[->|[->|[->|[->|[->|[->|[->|[]]]]]]]]]]; done. }
  unfold is_role_based. apply bool_decide_eq_true_2.
  assert (Py.first (Py.split "+" (Py.lower (Py.first
            (Py.split "@" (role +:+ String sep rest))))) = role) as ->;
    [|by rewrite Hdot].
  destruct Hsep as [-> | ->].
  - rewrite first_split_app by (intros c Hc; by apply Hfree).
    rewrite first_split_other by done.
    rewrite lower_app, Hlow.
    change (Py.lower (String "+" ?s)) with (String "+"%char (Py.lower s)).
    rewrite first_split_app by (intros c Hc; by apply Hfree).
    rewrite first_split_sep. apply append_empty_r.
  - rewrite first_split_app by (intros c Hc; by apply Hfree).
    rewrite first_split_sep, append_empty_r, Hlow.
    rewrite <- (append_empty_r role) at 1.
    rewrite first_split_app by (intros c Hc; by apply Hfree).
    apply append_empty_r.
Qed.

Lemma lower_char_dot (c : ascii) :
  Ascii.eqb (Py.lower_char c) "." = Ascii.eqb c ".".
Proof. destruct c as [[] [] [] [] [] [] [] []]; reflexivity. Qed.

Lemma is_role_based_key (email : string) :
  is_role_based email = bool_decide (role_key email ∈ ROLE_BASED_USERS).
Proof. reflexivity. Qed.

(** The key is read off the address from the left: it stops at the first
    [@] or [+], drops dots and lower-cases everything else. *)
Lemma role_key_cons (c : ascii) (s : string) :
  role_key (String c s) =
  if Ascii.eqb c "@" || Ascii.eqb c "+" then ""
  else if Ascii.eqb c "." then role_key s
  else String (Py.lower_char c) (role_key s).
Proof.
  unfold role_key.
  destruct (Ascii.eqb_spec c "@") as [->|Hat]; [reflexivity|].
  rewrite first_split_other by done.
  change (Py.lower (String c ?x)) with (String (Py.lower_char c) (Py.lower x)).
  cbn [orb].
  destruct (Ascii.eqb_spec c "+") as [->|Hplus]; [reflexivity|].
  rewrite first_split_other.
  2:{ intros Heq. apply Hplus. apply Ascii.eqb_eq.
      rewrite <- lower_char_plus, Heq. reflexivity. }
  cbn [Py.remove_char]. rewrite lower_char_dot. reflexivity.
Qed.

(** X1. The mailbox name of a role followed by [+] and anything, or by [@]
    and anything, is role-based: the tag and the domain are ignored. *)
Theorem is_role_based_ignores_tag (role rest : string) :
  role ∈ ROLE_BASED_USERS ->
  is_role_based (role +:+ "+" +:+ rest) = true /\
  is_role_based (role +:+ "@" +:+ rest) = true.
Proof.
  intros Hrole. split.
  - apply (is_role_based_plus_or_at role rest "+"); auto.
  - apply (is_role_based_plus_or_at role rest "@"); auto.
Qed.

Lemma is_role_based_ignores_tag_witness :
  "admin" ∈ ROLE_BASED_USERS /\
  is_role_based ("admin" +:+ "+" +:+ "test@example.com") = true /\
  is_role_based ("admin" +:+ "@" +:+ "example.com") = true.
Proof.
  assert ("admin" ∈ ROLE_BASED_USERS) as Hrole
    by (unfold ROLE_BASED_USERS; apply elem_of_list_to_set, list_elem_of_here).
  split; [exact Hrole|].
  exact (is_role_based_ignores_tag "admin" _ Hrole).
Defined.

Lemma role_key_lower (email : string) : role_key (Py.lower email) = role_key email.
Proof.
  induction email as [|c s IH]; [done|].
  change (Py.lower (String c s)) with (String (Py.lower_char c) (Py.lower s)).
  rewrite !role_key_cons, lower_char_at, lower_char_plus, lower_char_dot,
    lower_char_idempotent, IH.
  reflexivity.
Qed.

(** X2. The role check does not depend on the case of the address. *)
Theorem is_role_based_case_insensitive (email : string) :
  is_role_based (Py.lower email) = is_role_based email.
Proof. by rewrite !is_role_based_key, role_key_lower. Qed.

Lemma role_key_dot (before after : string) :
  role_key (before +:+ "." +:+ after) = role_key (before +:+ after).
Proof.
  induction before as [|c s IH].
  - change ("" +:+ "." +:+ after) with (String "." after).
    by rewrite role_key_cons.
  - change (String c s +:+ "." +:+ after) with (String c (s +:+ "." +:+ after)).
    change (String c s +:+ after) with (String c (s +:+ after)).
    by rewrite !role_key_cons, IH.
Qed.

(** X3. A dot anywhere in the address does not change the role check. *)
Theorem is_role_based_ignores_dots (before after : string) :
  is_role_based (before +:+ "." +:+ after) = is_role_based (before +:+ after).
Proof. by rewrite !is_role_based_key, role_key_dot. Qed.

(** ** The TLD check, in terms of the text of the domain *)

Lemma string_length_app (a b : string) :
  String.length (a +:+ b) = (String.length a + String.length b)%nat.
Proof. induction a as [|c a IH]; simpl; [done|]. by rewrite IH. Qed.

Lemma string_app_assoc (a b d : string) :
  a +:+ b +:+ d = (a +:+ b) +:+ d.
Proof.
  induction a as [|c a IH]; [done|].
  change (String c (a +:+ b +:+ d) = String c ((a +:+ b) +:+ d)). by f_equal.
Qed.

Lemma substring_whole (s : string) : substring 0 (String.length s) s = s.
Proof. induction s as [|c s IH]; simpl; [done|]. by rewrite IH. Qed.

Lemma substring_suffix (pre suf : string) :
  substring (String.length pre) (String.length suf) (pre +:+ suf) = suf.
Proof.
  induction pre as [|c pre IH]; simpl; [apply substring_whole|exact IH].
Qed.

Lemma substring_split (m : nat) (s : string) :
  (m <= String.length s)%nat ->
  exists pre,
    s = pre +:+ substring m (String.length s - m) s /\ String.length pre = m.
Proof.
  revert s. induction m as [|m IH]; intros s Hm.
  - exists "". rewrite Nat.sub_0_r, substring_whole. done.
  - destruct s as [|c s]; simpl in Hm; [lia|].
    destruct (IH s) as (pre & Hs & Hlen); [lia|].
    exists (String c pre). split; [|simpl; by rewrite Hlen].
    change (String c s = String c (pre +:+ substring m (String.length s - m) s)).
    by f_equal.
Qed.

Lemma endswith_iff (s suffix : string) :
  Py.endswith s suffix = true <-> exists pre, s = pre +:+ suffix.
Proof.
  unfold Py.endswith. split.
  - destruct (Nat.leb_spec (String.length suffix) (String.length s)) as [Hle|];
      [|done].
    intros Heq. apply String.eqb_eq in Heq.
    destruct (substring_split (String.length s - String.length suffix) s)
      as (pre & Hs & _); [lia|].
    exists pre.
    replace (String.length s - (String.length s - String.length suffix))%nat
      with (String.length suffix) in Hs by lia.
    by rewrite Heq in Hs.
  - intros (pre & ->). rewrite string_length_app.
    rewrite (proj2 (Nat.leb_le _ _)) by lia.
    replace (String.length pre + String.length suffix - String.length suffix)%nat
      with (String.length pre) by lia.
    rewrite substring_suffix. apply String.eqb_refl.
Qed.

Lemma tld_accepts_iff (domain tld : string) :
  tld_accepts domain tld = true <->
  exists name, name <> "" /\ domain = name +:+ tld.
Proof.
  unfold tld_accepts. rewrite andb_true_iff, endswith_iff, Z.ltb_lt. split.
  - intros [(name & ->) Hlen]. exists name. split; [|done].
    intros ->. change ("" +:+ tld) with tld in Hlen. lia.
  - intros (name & Hname & ->). split; [by exists name|].
    unfold Py.len. rewrite string_length_app.
    destruct name as [|c name]; [done|].
    change (String.length (String c name)) with (S (String.length name)). lia.
Qed.

Lemma is_valid_tld_iff (tld_list : list string) (domain : string) :
  tld_list ≡ₚ VALID_TLDS_literal ->
  is_valid_tld tld_list domain = true <->
  exists name tld, tld ∈ VALID_TLDS /\ name <> "" /\ domain = name +:+ tld.
Proof.
  intros Hperm. rewrite (is_valid_tld_order_irrelevant tld_list) by done.
  rewrite existsb_exists. unfold VALID_TLDS. split.
  - intros (tld & Hin & Hacc). apply tld_accepts_iff in Hacc as (name & ? & ?).
    exists name, tld. split; [|done].
    apply elem_of_list_to_set. by apply list_elem_of_In.
  - intros (name & tld & Hin & Hname & Hdom). exists tld. split.
    + apply list_elem_of_In. by apply elem_of_list_to_set in Hin.
    + apply tld_accepts_iff. by exists name.
Qed.

(** The loop tests the candidates from the front and stops only when it
    accepts: what it tested is a prefix of the candidates, the whole list
    when the answer is false. *)
Lemma tld_loop_tested_prefix (domain : string) (candidates : list string) :
  exists untested,
    candidates = ((tld_loop domain candidates).2 ++ untested)%list /\
    ((tld_loop domain candidates).1 = false -> untested = []).
Proof.
  induction candidates as [|tld rest (untested & Hrest & Hall)].
  - by exists [].
  - cbn [tld_loop].
    destruct (Py.endswith domain tld);
      [destruct (0 <? Py.len domain - Py.len tld);
       [by exists rest|]|];
      destruct (tld_loop domain rest) as [answer tested];
      exists untested; cbn [fst snd] in *; by rewrite Hrest at 1.
Qed.

Lemma StronglySorted_app_r {A} (R : A -> A -> Prop) (l1 l2 : list A) :
  StronglySorted R (l1 ++ l2) -> StronglySorted R l2.
Proof.
  induction l1 as [|x l1 IH]; [done|].
  cbn [app]. intros Hs. apply IH. by apply StronglySorted_inv in Hs as [? _].
Qed.

(** In a list in order of non-increasing length, a strictly longer element
    of the list stands before a shorter one. *)
Lemma longer_stands_before (before after : list string) (shorter longer : string) :
  StronglySorted (fun earlier later => Py.len later <= Py.len earlier)
    (before ++ shorter :: after) ->
  longer ∈ (before ++ shorter :: after)%list ->
  Py.len shorter < Py.len longer ->
  longer ∈ before.
Proof.
  intros Hsorted Hin Hlen.
  apply elem_of_app in Hin as [?|Hin]; [done|].
  apply StronglySorted_app_r, StronglySorted_inv in Hsorted as [_ Hafter].
  apply elem_of_cons in Hin as [->|Hin]; [lia|].
  rewrite Forall_forall in Hafter. specialize (Hafter longer Hin). lia.
Qed.

(** C5. For every order in which the fixed TLD set is iterated:
    a domain equal to a bare recognized suffix is rejected, a non-empty name
    followed by a recognized suffix is accepted, and a domain that ends with
    no recognized suffix is rejected (so ".com" is rejected, "example.com"
    accepted and "example.zzz" rejected); and in every call the suffixes are
    tested longest first: the suffixes tested, followed by those left
    untested when the call accepted early, are the whole set in order of
    non-increasing length, so every recognized suffix strictly longer than a
    tested one was tested before it. *)
Theorem is_valid_tld_examples_longest_first (tld_list : list string) :
  tld_list ≡ₚ VALID_TLDS_literal ->
  (forall tld, tld ∈ VALID_TLDS -> is_valid_tld tld_list tld = false) /\
  (forall name tld,
      name <> "" -> tld ∈ VALID_TLDS ->
      is_valid_tld tld_list (name +:+ tld) = true) /\
  (forall domain,
      (forall tld, tld ∈ VALID_TLDS -> Py.endswith domain tld = false) ->
      is_valid_tld tld_list domain = false) /\
  is_valid_tld tld_list ".com" = false /\
  is_valid_tld tld_list "example.com" = true /\
  is_valid_tld tld_list "example.zzz" = false /\
  (forall domain,
      exists tested untested,
        is_valid_tld_run tld_list domain = (is_valid_tld tld_list domain, tested) /\
        (tested ++ untested)%list ≡ₚ VALID_TLDS_literal /\
        StronglySorted (fun earlier later => Py.len later <= Py.len earlier)
          (tested ++ untested) /\
        (is_valid_tld tld_list domain = false -> untested = []) /\
        (forall before shorter after longer,
            tested = (before ++ shorter :: after)%list ->
            longer ∈ VALID_TLDS ->
            Py.len shorter < Py.len longer ->
            longer ∈ before)).
Proof.
  intros Hperm. split; [|split; [|split; [|split; [|split; [|split]]]]].
  - intros tld Hin. rewrite (is_valid_tld_order_irrelevant tld_list) by done.
    unfold VALID_TLDS in Hin. apply elem_of_list_to_set in Hin.
    unfold VALID_TLDS_literal in Hin.
    repeat (apply elem_of_cons in Hin as [->|Hin]; [vm_compute; reflexivity|]).
    by apply elem_of_nil in Hin.
  - intros name tld Hname Hin. apply is_valid_tld_iff; [done|].
    by exists name, tld.
  - intros domain Hnone.
    destruct (is_valid_tld tld_list domain) eqn:Hvalid; [|done].
    apply is_valid_tld_iff in Hvalid as (name & tld & Hin & _ & ->); [|done].
    rewrite <- (Hnone tld Hin). symmetry. apply endswith_iff. by exists name.
  - rewrite (is_valid_tld_order_irrelevant tld_list) by done.
    vm_compute. reflexivity.
  - rewrite (is_valid_tld_order_irrelevant tld_list) by done.
    vm_compute. reflexivity.
  - rewrite (is_valid_tld_order_irrelevant tld_list) by done.
    vm_compute. reflexivity.
  - intros domain. unfold is_valid_tld, is_valid_tld_run.
    destruct (tld_loop_tested_prefix domain (sorted_tlds tld_list))
      as (untested & Hsplit & Hall).
    pose proof (sorted_tlds_longest_first tld_list) as Hsorted.
    assert (sorted_tlds tld_list ≡ₚ VALID_TLDS_literal) as Hset
      by (unfold sorted_tlds; by rewrite sorted_Permutation).
    destruct (tld_loop domain (sorted_tlds tld_list)) as [answer tested].
    cbn [fst snd] in *. exists tested, untested.
    rewrite <- Hsplit. repeat split; try done.
    intros before shorter after longer -> Hin Hlen.
    rewrite <- app_assoc in Hsplit. cbn [app] in Hsplit.
    apply (longer_stands_before before (after ++ untested) shorter longer);
      [by rewrite <- Hsplit| |done].
    rewrite <- Hsplit, Hset.
    unfold VALID_TLDS in Hin. by apply elem_of_list_to_set in Hin.
Qed.

Lemma is_valid_tld_examples_longest_first_witness :
  VALID_TLDS_literal ≡ₚ VALID_TLDS_literal /\
  (forall tld, tld ∈ VALID_TLDS -> is_valid_tld VALID_TLDS_literal tld = false) /\
  (forall name tld,
      name <> "" -> tld ∈ VALID_TLDS ->
      is_valid_tld VALID_TLDS_literal (name +:+ tld) = true) /\
  (forall domain,
      (forall tld, tld ∈ VALID_TLDS -> Py.endswith domain tld = false) ->
      is_valid_tld VALID_TLDS_literal domain = false) /\
  is_valid_tld VALID_TLDS_literal ".com" = false /\
  is_valid_tld VALID_TLDS_literal "example.com" = true /\
  is_valid_tld VALID_TLDS_literal "example.zzz" = false /\
  (forall domain,
      exists tested untested,
        is_valid_tld_run VALID_TLDS_literal domain
        = (is_valid_tld VALID_TLDS_literal domain, tested) /\
        (tested ++ untested)%list ≡ₚ VALID_TLDS_literal /\
        StronglySorted (fun earlier later => Py.len later <= Py.len earlier)
          (tested ++ untested) /\
        (is_valid_tld VALID_TLDS_literal domain = false -> untested = []) /\
        (forall before shorter after longer,
            tested = (before ++ shorter :: after)%list ->
            longer ∈ VALID_TLDS ->
            Py.len shorter < Py.len longer ->
            longer ∈ before)).
Proof.
  split; [reflexivity|].
  apply (is_valid_tld_examples_longest_first VALID_TLDS_literal); reflexivity.
Defined.

(** X4. Whatever the order in which the TLD set is iterated, a domain passes
    the TLD check exactly when it is a non-empty name followed by one of the
    recognized suffixes. *)
Theorem is_valid_tld_characterised (tld_list : list string) (domain : string) :
  tld_list ≡ₚ VALID_TLDS_literal ->
  is_valid_tld tld_list domain = true <->
  exists name tld, tld ∈ VALID_TLDS /\ name <> "" /\ domain = name +:+ tld.
Proof. apply is_valid_tld_iff. Qed.

Lemma is_valid_tld_characterised_witness :
  VALID_TLDS_literal ≡ₚ VALID_TLDS_literal /\
  (is_valid_tld VALID_TLDS_literal "mail.example.org" = true <->
   exists name tld,
     tld ∈ VALID_TLDS /\ name <> "" /\ "mail.example.org" = name +:+ tld).
Proof.
  split; [reflexivity|].
  apply (is_valid_tld_characterised VALID_TLDS_literal "mail.example.org").
  reflexivity.
Defined.

(** X5. The TLD check does not reject stacked suffixes: a non-empty name
    followed by two recognized suffixes, like example.com.com, passes. *)
Theorem is_valid_tld_accepts_stacked_suffixes
    (tld_list : list string) (name inner outer : string) :
  tld_list ≡ₚ VALID_TLDS_literal ->
  name <> "" ->
  outer ∈ VALID_TLDS ->
  is_valid_tld tld_list (name +:+ inner +:+ outer) = true.
Proof.
  intros Hperm Hname Houter. apply is_valid_tld_iff; [done|].
  exists (name +:+ inner), outer. split; [done|]. split.
  - by destruct name.
  - apply string_app_assoc.
Qed.

Lemma is_valid_tld_accepts_stacked_suffixes_witness :
  VALID_TLDS_literal ≡ₚ VALID_TLDS_literal /\
  "example" <> "" /\
  ".com" ∈ VALID_TLDS /\
  is_valid_tld VALID_TLDS_literal ("example" +:+ ".com" +:+ ".com") = true.
Proof.
  assert (".com" ∈ VALID_TLDS) as Hin
    by (unfold VALID_TLDS; apply elem_of_list_to_set, list_elem_of_here).
  split; [reflexivity|]. split; [discriminate|]. split; [exact Hin|].
  apply (is_valid_tld_accepts_stacked_suffixes VALID_TLDS_literal
           "example" ".com" ".com"); [reflexivity|discriminate|exact Hin].
Defined.

(** ** The hosts returned by MX resolution *)

Lemma StronglySorted_weaken {A} (R R' : A -> A -> Prop) (l : list A) :
  (forall x y, R x y -> R' x y) -> StronglySorted R l -> StronglySorted R' l.
Proof.
  intros HR. induction 1 as [|x l _ IH Hx]; constructor; [exact IH|].
  eapply Forall_impl; [exact Hx|]. auto.
Qed.

(** The returned list is the list of host names in stable ascending order
    of the sort key. *)
Lemma mx_order_sorted_hosts (mx_answers : list MxAnswer) :
  mx_order mx_answers
  = Py.sorted (first_preference mx_answers) Py.ascending (map host_of mx_answers).
Proof.
  unfold mx_order.
  rewrite <- (map_id (map host_of mx_answers)) at 2.
  rewrite zip_map_pair.
  rewrite (sorted_map fst Py.ascending
             (fun h => (first_preference mx_answers h, id h))).
  rewrite map_map. cbn [snd fst]. apply map_id.
Qed.

Lemma append_char_nonempty (pre : string) (c : ascii) :
  pre +:+ String c "" <> "".
Proof.
  destruct pre as [|p pre].
  - change ("" +:+ String c "") with (String c ""). discriminate.
  - change (String p pre +:+ String c "") with (String p (pre +:+ String c "")).
    discriminate.
Qed.

Lemma rstrip_no_trailing (c : ascii) (s pre : string) :
  Py.rstrip c s <> pre +:+ String c "".
Proof.
  revert pre. induction s as [|d s IH]; intros pre.
  - cbn [Py.rstrip]. intros Heq. by apply (append_char_nonempty pre c).
  - cbn [Py.rstrip]. destruct (Py.rstrip c s) as [|k kept] eqn:Hkept.
    + destruct (Ascii.eqb_spec d c) as [->|Hd].
      * intros Heq. by apply (append_char_nonempty pre c).
      * destruct pre as [|p pre].
        -- change ("" +:+ String c "") with (String c ""). congruence.
        -- change (String p pre +:+ String c "")
             with (String p (pre +:+ String c "")).
           intros [= _ Heq]. by apply (append_char_nonempty pre c).
    + destruct pre as [|p pre].
      * change ("" +:+ String c "") with (String c ""). congruence.
      * change (String p pre +:+ String c "")
          with (String p (pre +:+ String c "")).
        intros [= _ Heq]. by apply (IH pre).
Qed.

Section ResolverHosts.
Variable env : Env.

(** X6. On an answer with records, the lookup returns exactly the host names
    of the records, each once per record, without their trailing dots:
    nothing is dropped, nothing is added. *)
Theorem get_mx_records_keeps_hosts (domain : string) (mx_answers : list MxAnswer) :
  dns_mx env domain = Return mx_answers ->
  exists hosts,
    get_mx_records env domain tt
    = (Return (Some hosts), tt, [EvResolve nameservers domain "MX"]) /\
    hosts ≡ₚ map (fun answer => Py.rstrip "." (exchange answer)) mx_answers /\
    Forall (fun host => Py.endswith host "." = false) hosts.
Proof.
  intros Hdns. exists (mx_order mx_answers).
  unfold get_mx_records. rewrite sync_mx_lookup_run, Hdns. split; [done|].
  rewrite mx_order_sorted_hosts. split.
  - apply sorted_Permutation.
  - rewrite sorted_Permutation. apply Forall_forall. intros host Hin.
    apply list_elem_of_fmap in Hin as (answer & -> & _).
    destruct (Py.endswith (host_of answer) ".") eqn:Hends; [|done].
    apply endswith_iff in Hends as (pre & Hpre).
    by apply rstrip_no_trailing in Hpre.
Qed.

(** X7. The returned hosts are in ascending order of the sort key of the
    source: the preference of the first record of the answer that carries
    the host name. *)
Theorem get_mx_records_sorted_by_key (domain : string) (mx_answers : list MxAnswer) :
  dns_mx env domain = Return mx_answers ->
  exists hosts,
    get_mx_records env domain tt
    = (Return (Some hosts), tt, [EvResolve nameservers domain "MX"]) /\
    StronglySorted
      (fun earlier later =>
         first_preference mx_answers earlier <= first_preference mx_answers later)
      hosts.
Proof.
  intros Hdns. exists (mx_order mx_answers).
  unfold get_mx_records. rewrite sync_mx_lookup_run, Hdns. split; [done|].
  rewrite mx_order_sorted_hosts.
  eapply StronglySorted_weaken;
    [|apply (sorted_StronglySorted _ _ ascending_total ascending_trans)].
  intros x y. cbn beta. unfold Py.ascending. lia.
Qed.

(** X8. When no host name occurs twice in the answer, the returned list is
    the host names of the records in ascending order of their own
    preference, records of equal preference in the order of the answer. *)
Theorem get_mx_records_distinct_hosts (domain : string) (mx_answers : list MxAnswer) :
  dns_mx env domain = Return mx_answers ->
  NoDup (map (fun answer => Py.rstrip "." (exchange answer)) mx_answers) ->
  exists ordered,
    ordered ≡ₚ mx_answers /\
    StronglySorted (fun a b => preference a <= preference b) ordered /\
    (forall p, filter (fun a => preference a = p) ordered
               = filter (fun a => preference a = p) mx_answers) /\
    get_mx_records env domain tt
    = (Return (Some (map (fun answer => Py.rstrip "." (exchange answer)) ordered)),
       tt, [EvResolve nameservers domain "MX"]).
Proof.
  intros Hdns Hnodup.
  exists (Py.sorted preference Py.ascending mx_answers). repeat split.
  - apply sorted_Permutation.
  - eapply StronglySorted_weaken;
      [|apply (sorted_StronglySorted _ _ ascending_total ascending_trans)].
    intros x y. cbn beta. unfold Py.ascending. lia.
  - intros p. apply sorted_stable. intros a. unfold Py.ascending. lia.
  - unfold get_mx_records. rewrite sync_mx_lookup_run, Hdns.
    cbn [mx_result]. by rewrite mx_order_distinct_hosts.
Qed.

End ResolverHosts.

Lemma get_mx_records_keeps_hosts_witness :
  dns_mx (Scenario.world [] (Return Scenario.duplicate_exchange) Scenario.friendly)
    "example.com" = Return Scenario.duplicate_exchange /\
  exists hosts,
    get_mx_records
      (Scenario.world [] (Return Scenario.duplicate_exchange) Scenario.friendly)
      "example.com" tt
    = (Return (Some hosts), tt, [EvResolve nameservers "example.com" "MX"]) /\
    hosts ≡ₚ map (fun answer => Py.rstrip "." (exchange answer))
               Scenario.duplicate_exchange /\
    Forall (fun host => Py.endswith host "." = false) hosts.
Proof.
  split; [reflexivity|].
  exact (get_mx_records_keeps_hosts
           (Scenario.world [] (Return Scenario.duplicate_exchange) Scenario.friendly)
           "example.com" Scenario.duplicate_exchange eq_refl).
Defined.

Lemma get_mx_records_sorted_by_key_witness :
  dns_mx (Scenario.world [] (Return Scenario.duplicate_exchange) Scenario.friendly)
    "example.com" = Return Scenario.duplicate_exchange /\
  exists hosts,
    get_mx_records
      (Scenario.world [] (Return Scenario.duplicate_exchange) Scenario.friendly)
      "example.com" tt
    = (Return (Some hosts), tt, [EvResolve nameservers "example.com" "MX"]) /\
    StronglySorted
      (fun earlier later =>
         first_preference Scenario.duplicate_exchange earlier
         <= first_preference Scenario.duplicate_exchange later)
      hosts.
Proof.
  split; [reflexivity|].
  exact (get_mx_records_sorted_by_key
           (Scenario.world [] (Return Scenario.duplicate_exchange) Scenario.friendly)
           "example.com" Scenario.duplicate_exchange eq_refl).
Defined.

Lemma get_mx_records_distinct_hosts_witness :
  dns_mx (Scenario.world [] (Return Scenario.two_records) Scenario.friendly)
    "example.com" = Return Scenario.two_records /\
  NoDup (map (fun answer => Py.rstrip "." (exchange answer)) Scenario.two_records) /\
  exists ordered,
    ordered ≡ₚ Scenario.two_records /\
    StronglySorted (fun a b => preference a <= preference b) ordered /\
    (forall p, filter (fun a => preference a = p) ordered
               = filter (fun a => preference a = p) Scenario.two_records) /\
    get_mx_records (Scenario.world [] (Return Scenario.two_records) Scenario.friendly)
      "example.com" tt
    = (Return (Some (map (fun answer => Py.rstrip "." (exchange answer)) ordered)),
       tt, [EvResolve nameservers "example.com" "MX"]).
Proof.
  assert (NoDup (map (fun answer => Py.rstrip "." (exchange answer))
                   Scenario.two_records)) as Hnodup.
  { apply NoDup_cons. split; [|apply NoDup_singleton].
    rewrite list_elem_of_singleton. discriminate. }
  split; [reflexivity|]. split; [exact Hnodup|].
  exact (get_mx_records_distinct_hosts
           (Scenario.world [] (Return Scenario.two_records) Scenario.friendly)
           "example.com" Scenario.two_records eq_refl Hnodup).
Defined.

(** ** The calls of the SMTP probe *)

Ltac probe_unfold :=
  unfold probe_trace, probe_outcome, check_smtp, try_finally, try_except,
    smtp_dialogue, smtp_faults, smtp_cleanup, SMTP_new, SMTP_connect,
    SMTP_helo, SMTP_mail, SMTP_rcpt, SMTP_quit, SMTP_close, on_socket,
    mbind, io_mbind, bind, getitem0, extern, put, get, ret, raise;
  unfold try_except;
  cbn [find fst snd negb app].

Ltac probe_step :=
  match goal with
  | |- context [smtp_init ?e] => destruct (smtp_init e) as [[]|?]
  | |- context [srv_connect ?s] => destruct (srv_connect s) as [?|?]
  | |- context [srv_helo ?s ?n] => destruct (srv_helo s n) as [?|?]
  | |- context [srv_mail ?s ?n] => destruct (srv_mail s n) as [[? ?]|?]
  | |- context [srv_rcpt ?s ?n] => destruct (srv_rcpt s n) as [[? ?]|?]
  | |- context [srv_quit ?s] => destruct (srv_quit s) as [?|?]
  | |- context [Z.eqb ?c 250] => destruct (Z.eqb_spec c 250)
  | |- context [bool_decide (?c ∈ [550; 553])] =>
      destruct (bool_decide (c ∈ [550; 553]))
  | |- context [isinstance ?e [Exception]] => rewrite isinstance_Exception
  | |- context [isinstance ?e ?l] => destruct (isinstance e l)
  end;
  cbn [find fst snd negb app].

Ltac solve_sublist :=
  solve [repeat first [apply sublist_nil | apply sublist_skip | apply sublist_cons]].

Section ProbeCalls.
Variable env : Env.

(** X9. The probe of a non-empty host list talks to the first host only, on
    port 25: its calls are a subsequence of one complete session with that
    host, so each call is made at most once and in protocol order, and the
    only recipient named is the address under validation. *)
Theorem check_smtp_single_session (email mx_server : string) (rest : list string) :
  sublist (probe_trace env email (mx_server :: rest))
    (full_session mx_server email).
Proof.
  probe_unfold. unfold full_session.
  repeat probe_step; solve_sublist.
Qed.

(** X10. The probe names the recipient only after the whole prelude went
    through: if RCPT TO was sent, then the client object was created, the
    connection and the greeting returned, and MAIL FROM was answered 250. *)
Theorem rcpt_only_after_sender_accepted
    (email mx_server : string) (rest : list string) (host recip : string) :
  EvRcpt host recip ∈ probe_trace env email (mx_server :: rest) ->
  smtp_init env = Return tt /\
  (exists banner, srv_connect (smtp_server env mx_server) = Return banner) /\
  (exists greeting,
      srv_helo (smtp_server env mx_server) "email-validator.example.com"
      = Return greeting) /\
  (exists text,
      srv_mail (smtp_server env mx_server) "test@example.com"
      = Return (250, text)).
Proof.
  probe_unfold.
  repeat probe_step; intros Hin;
    first
      [ by (subst; eauto 10)
      | exfalso;
        repeat (apply elem_of_cons in Hin as [Hin|Hin]; [discriminate|]);
        by apply elem_of_nil in Hin ].
Qed.

(** X11. The probe reports success exactly when every step of the dialogue
    with the first host returned, MAIL FROM was answered 250 and RCPT TO for
    the address was answered 250. *)
Theorem check_smtp_success_iff (email mx_server : string) (rest : list string) :
  (exists detail,
      probe_outcome env email (mx_server :: rest) = Return ("success", detail))
  <->
  smtp_init env = Return tt /\
  (exists banner, srv_connect (smtp_server env mx_server) = Return banner) /\
  (exists greeting,
      srv_helo (smtp_server env mx_server) "email-validator.example.com"
      = Return greeting) /\
  (exists text,
      srv_mail (smtp_server env mx_server) "test@example.com"
      = Return (250, text)) /\
  (exists text,
      srv_rcpt (smtp_server env mx_server) email = Return (250, text)).
Proof.
  rewrite probe_outcome_run. unfold probe_verdict, dialogue, fault_verdict.
  repeat probe_step; split;
    try (intros (detail & [= ?]); subst; by eauto 10);
    try (intros (detail & Hd); discriminate Hd);
    intros (Hi & (? & Hc) & (? & Hh) & (? & Hm) & (? & Hr));
    try discriminate; try (injection Hm as -> _; done);
    try (injection Hr as -> _; done);
    by eauto.
Qed.

(** X12. The probe lets an exception out only for an empty host list: then
    it raises [IndexError] before any call is made; on every other list it
    returns. *)
Theorem check_smtp_raises_only_on_empty (email : string) (hosts : list string) :
  ((exists e, probe_outcome env email hosts = Raise e) <-> hosts = []) /\
  probe_outcome env email [] = Raise IndexError /\
  probe_trace env email [] = [].
Proof.
  split; [|split; reflexivity].
  destruct hosts as [|mx_server rest]; split; try done.
  - intros _. by exists IndexError.
  - rewrite probe_outcome_run. by intros (e & ?).
Qed.

End ProbeCalls.

Lemma rcpt_only_after_sender_accepted_witness :
  EvRcpt "mx.example.com" "user@example.com"
    ∈ probe_trace (Scenario.rcpt_world 550) "user@example.com" ["mx.example.com"] /\
  smtp_init (Scenario.rcpt_world 550) = Return tt /\
  (exists banner,
      srv_connect (smtp_server (Scenario.rcpt_world 550) "mx.example.com")
      = Return banner) /\
  (exists greeting,
      srv_helo (smtp_server (Scenario.rcpt_world 550) "mx.example.com")
        "email-validator.example.com" = Return greeting) /\
  (exists text,
      srv_mail (smtp_server (Scenario.rcpt_world 550) "mx.example.com")
        "test@example.com" = Return (250, text)).
Proof.
  assert (EvRcpt "mx.example.com" "user@example.com"
            ∈ probe_trace (Scenario.rcpt_world 550) "user@example.com"
                ["mx.example.com"]) as Hin.
  { vm_compute. do 4 apply list_elem_of_further. apply list_elem_of_here. }
  split; [exact Hin|].
  exact (rcpt_only_after_sender_accepted (Scenario.rcpt_world 550)
           "user@example.com" "mx.example.com" []
           "mx.example.com" "user@example.com" Hin).
Defined.

(** ** The result and the calls of the orchestrator *)

Lemma domain_of_lower (email : string) : domain_of (Py.lower email) = domain_of email.
Proof.
  unfold domain_of.
  rewrite (split_lower "@" email lower_char_at), final_map_lower.
  by rewrite lower_idempotent.
Qed.

Lemma literal_append_nonempty (c : ascii) (a b : string) : String c a +:+ b <> "".
Proof. change (String c a +:+ b) with (String c (a +:+ b)). discriminate. Qed.


Section OrchestratorCalls.
Variable env : Env.

(** Every call of [validate_email] returns [verdict] after the calls of
    [validation_trace]. *)
Lemma validate_email_calls (email : string) (smtp_check_enabled : bool) :
  validate_email env email smtp_check_enabled tt
  = (Return (verdict env email smtp_check_enabled), tt,
     validation_trace env email smtp_check_enabled).
Proof.
  unfold validate_email, verdict, validation_trace. fold (domain_of email).
  destruct (bool_decide _); [done|].
  destruct (negb (is_valid_tld _ _)); [done|].
  rewrite run_bind. unfold get_mx_records. rewrite sync_mx_lookup_run.
  destruct (mx_result _) as [[|mx_server others]|]; cbn [truthy]; [done| |done].
  destruct smtp_check_enabled; cbn [negb].
  - rewrite !run_bind. unfold invoke, probe_trace.
    destruct (check_smtp_run env email mx_server others None)
      as (conn & trace & ->).
    destruct (probe_verdict env mx_server email) as [smtp_status smtp_message].
    cbn [ret ValidationResult.message ValidationResult.set_message
         ValidationResult.set_smtp_check_status snd].
    destruct (String.eqb _ ""); unfold ret; by rewrite !app_nil_r.
  - rewrite run_bind. cbn. reflexivity.
Qed.

(** X13. Every result carries a message: the [message] field of a returned
    result is never the empty string. *)
Theorem message_never_empty (email : string) (smtp_check_enabled : bool) :
  exists result trace,
    validate_email env email smtp_check_enabled tt = (Return result, tt, trace) /\
    ValidationResult.message result <> "".
Proof.
  eexists _, _. split; [apply validate_email_calls|].
  unfold verdict.
  destruct (bool_decide _); [apply literal_append_nonempty|].
  destruct (negb _); [apply literal_append_nonempty|].
  destruct (mx_result _) as [[|mx_server others]|];
    [apply literal_append_nonempty| |apply literal_append_nonempty].
  destruct smtp_check_enabled; [destruct (probe_verdict _ _ _)|];
    cbn [ValidationResult.message ValidationResult.set_message
         ValidationResult.set_smtp_check_status];
    match goal with
    | |- context [String.eqb ?m ""] => destruct (String.eqb_spec m "")
    end; try discriminate; try done.
Qed.

(** X14. [domain_exists] is true exactly when the domain is not blacklisted,
    passes the TLD check and the lookup returns at least one host; the
    [mx_records] field is then that very list, and is absent otherwise. *)
Theorem domain_exists_iff_routed (email : string) (smtp_check_enabled : bool) :
  exists result trace,
    validate_email env email smtp_check_enabled tt = (Return result, tt, trace) /\
    (ValidationResult.domain_exists result = true <->
     (domain_of email ∉ BLACKLISTED_DOMAINS env) /\
     is_valid_tld (tld_iteration env) (domain_of email) = true /\
     exists mx_server others,
       (get_mx_records env (domain_of email) tt).1.1
       = Return (Some (mx_server :: others)) /\
       ValidationResult.mx_records result = Some (mx_server :: others)) /\
    (ValidationResult.domain_exists result = false <->
     ValidationResult.mx_records result = None).
Proof.
  eexists _, _. split; [apply validate_email_calls|].
  unfold get_mx_records. rewrite sync_mx_lookup_run. cbn [fst].
  unfold verdict.
  destruct (bool_decide_reflect (domain_of email ∈ BLACKLISTED_DOMAINS env)).
  { cbn. split; [|done]. split; [done|]. by intros [? _]. }
  destruct (is_valid_tld _ _); cbn [negb].
  2:{ cbn. split; [|done]. split; [done|]. by intros (_ & ? & _). }
  destruct (mx_result _) as [[|mx_server others]|].
  - cbn. split; [|done]. split; [done|]. by intros (_ & _ & ? & ? & ? & _).
  - assert (forall result,
               ValidationResult.domain_exists result = true ->
               ValidationResult.mx_records result = Some (mx_server :: others) ->
               (ValidationResult.domain_exists result = true <->
                (domain_of email ∉ BLACKLISTED_DOMAINS env) /\
                true = true /\
                exists mx_server0 others0,
                  Return (Some (mx_server :: others))
                  = Return (Some (mx_server0 :: others0)) /\
                  ValidationResult.mx_records result
                  = Some (mx_server0 :: others0)) /\
               (ValidationResult.domain_exists result = false <->
                ValidationResult.mx_records result = None)) as Hcase.
    { intros result Hd Hm. rewrite Hd, Hm. split; [|done].
      split; [|done]. intros _. split; [done|]. split; [done|]. by eauto. }
    destruct smtp_check_enabled; [destruct (probe_verdict _ _ _)|];
      cbn [ValidationResult.message ValidationResult.set_message
           ValidationResult.set_smtp_check_status];
      destruct (String.eqb _ ""); by apply Hcase.
  - cbn. split; [|done]. split; [done|]. by intros (_ & _ & ? & ? & ? & _).
Qed.

(** X15. On every path the result reports the two policy flags of the
    address: [is_blacklisted] is true exactly for a blacklisted domain, and
    [is_role_based] is the role check of the address. *)
Theorem policy_flags_reported (email : string) (smtp_check_enabled : bool) :
  exists result trace,
    validate_email env email smtp_check_enabled tt = (Return result, tt, trace) /\
    (ValidationResult.is_blacklisted result = true
     <-> domain_of email ∈ BLACKLISTED_DOMAINS env) /\
    ValidationResult.is_role_based result = is_role_based email.
Proof.
  eexists _, _. split; [apply validate_email_calls|].
  unfold verdict.
  destruct (bool_decide_reflect (domain_of email ∈ BLACKLISTED_DOMAINS env)).
  { by cbn. }
  destruct (negb _); [by cbn|].
  destruct (mx_result _) as [[|mx_server others]|]; [by cbn| |by cbn].
  destruct smtp_check_enabled; [destruct (probe_verdict _ _ _)|];
    cbn [ValidationResult.message ValidationResult.set_message
         ValidationResult.set_smtp_check_status];
    destruct (String.eqb _ ""); by cbn.
Qed.

(** X16. The calls of one validation: none at all, or one MX query for the
    lower-cased domain through the three public resolvers, or that query
    followed by the calls of the probe of the returned hosts; the probe runs
    only when probing is enabled. *)
Theorem validate_email_call_sequence (email : string) (smtp_check_enabled : bool) :
  exists result trace,
    validate_email env email smtp_check_enabled tt = (Return result, tt, trace) /\
    (trace = [] \/
     trace = [EvResolve ["1.1.1.1"; "8.8.8.8"; "9.9.9.9"] (domain_of email) "MX"] \/
     smtp_check_enabled = true /\
     exists mx_server others,
       ValidationResult.mx_records result = Some (mx_server :: others) /\
       trace = EvResolve ["1.1.1.1"; "8.8.8.8"; "9.9.9.9"] (domain_of email) "MX"
               :: probe_trace env email (mx_server :: others)).
Proof.
  eexists _, _. split; [apply validate_email_calls|].
  unfold validation_trace, verdict.
  destruct (bool_decide _); [by left|].
  destruct (negb _); [by left|].
  destruct (mx_result _) as [[|mx_server others]|];
    [by right; left| |by right; left].
  destruct smtp_check_enabled; [|by right; left].
  right; right. split; [done|]. exists mx_server, others. split; [|done].
  destruct (probe_verdict _ _ _);
    cbn [ValidationResult.message ValidationResult.set_message
         ValidationResult.set_smtp_check_status];
    by destruct (String.eqb _ "").
Qed.

(** X17. With probing disabled no SMTP call is made: the trace is empty or
    the single MX query, and the status is skipped. *)
Theorem no_smtp_call_when_disabled (email : string) :
  exists result trace,
    validate_email env email false tt = (Return result, tt, trace) /\
    sublist trace [EvResolve nameservers (domain_of email) "MX"] /\
    ValidationResult.smtp_check_status result = "skipped".
Proof.
  eexists _, _. split; [apply validate_email_calls|].
  rewrite verdict_smtp_check_status. split; [|done].
  unfold validation_trace.
  destruct (bool_decide _); [solve_sublist|].
  destruct (negb _); [solve_sublist|].
  destruct (mx_result _) as [[|mx_server others]|]; solve_sublist.
Qed.

(** X18. A domain that fails the TLD check ends the validation before any
    call: no MX query, no SMTP session, [domain_exists] false and no host
    list. *)
Theorem invalid_tld_is_terminal (email : string) (smtp_check_enabled : bool) :
  is_valid_tld (tld_iteration env) (domain_of email) = false ->
  exists result,
    validate_email env email smtp_check_enabled tt = (Return result, tt, []) /\
    ValidationResult.domain_exists result = false /\
    ValidationResult.mx_records result = None.
Proof.
  intros Htld. rewrite validate_email_calls.
  unfold validation_trace, verdict. rewrite Htld. cbn [negb].
  destruct (bool_decide _); by eexists.
Qed.

(** X19. The final status is success exactly when probing is enabled, the
    pipeline reaches the probe, and the first returned host answered 250 to
    MAIL FROM and to RCPT TO for the address after every earlier step
    returned. *)
Theorem success_status_iff (email : string) (smtp_check_enabled : bool) :
  exists result trace,
    validate_email env email smtp_check_enabled tt = (Return result, tt, trace) /\
    (ValidationResult.smtp_check_status result = "success" <->
     smtp_check_enabled = true /\
     exists mx_server others detail,
       ValidationResult.mx_records result = Some (mx_server :: others) /\
       probe_outcome env email (mx_server :: others) = Return ("success", detail)).
Proof.
  eexists _, _. split; [apply validate_email_calls|].
  unfold verdict.
  destruct (bool_decide _).
  { destruct smtp_check_enabled; cbn; split; try done;
      by intros (_ & ? & ? & ? & ? & _). }
  destruct (negb _).
  { destruct smtp_check_enabled; cbn; split; try done;
      by intros (_ & ? & ? & ? & ? & _). }
  destruct (mx_result _) as [[|mx_server others]|].
  1,3: destruct smtp_check_enabled; cbn; split; try done;
         by intros (_ & ? & ? & ? & ? & _).
  destruct smtp_check_enabled.
  2:{ cbn. split; [done|]. by intros [? _]. }
  destruct (probe_verdict env mx_server email) as [smtp_status smtp_message] eqn:Hv.
  assert (forall result,
             ValidationResult.smtp_check_status result = smtp_status ->
             ValidationResult.mx_records result = Some (mx_server :: others) ->
             (ValidationResult.smtp_check_status result = "success" <->
              true = true /\
              exists mx_server0 others0 detail,
                ValidationResult.mx_records result = Some (mx_server0 :: others0) /\
                probe_outcome env email (mx_server0 :: others0)
                = Return ("success", detail))) as Hcase.
  { intros result -> Hm. rewrite Hm. split.
    - intros Hs. split; [done|]. exists mx_server, others, smtp_message.
      split; [done|]. by rewrite probe_outcome_run, Hv, Hs.
    - intros (_ & mx_server0 & others0 & detail & [= <- <-] & Ho).
      rewrite probe_outcome_run, Hv in Ho. by injection Ho as ->. }
  cbn [ValidationResult.message ValidationResult.set_message
       ValidationResult.set_smtp_check_status];
    destruct (String.eqb _ ""); by apply Hcase.
Qed.

End OrchestratorCalls.

Lemma invalid_tld_is_terminal_witness :
  is_valid_tld
    (tld_iteration (Scenario.world [] (Return Scenario.two_records) Scenario.friendly))
    (domain_of "user@example.zzz") = false /\
  exists result,
    validate_email (Scenario.world [] (Return Scenario.two_records) Scenario.friendly)
      "user@example.zzz" true tt = (Return result, tt, []) /\
    ValidationResult.domain_exists result = false /\
    ValidationResult.mx_records result = None.
Proof.
  split; [reflexivity|].
  exact (invalid_tld_is_terminal
           (Scenario.world [] (Return Scenario.two_records) Scenario.friendly)
           "user@example.zzz" true eq_refl).
Defined.

(** X20. With probing disabled the result and the calls do not depend on the
    mail hosts: two environments with the same blacklist, the same TLD
    iteration order and the same resolver answers validate alike. *)
Theorem disabled_probe_ignores_mail_hosts
    (env env' : Env) (email : string) :
  BLACKLISTED_DOMAINS env = BLACKLISTED_DOMAINS env' ->
  tld_iteration env = tld_iteration env' ->
  dns_mx env = dns_mx env' ->
  validate_email env email false tt = validate_email env' email false tt.
Proof.
  intros Hbl Htld Hdns. rewrite !validate_email_calls.
  unfold verdict, validation_trace. rewrite Hbl, Htld, Hdns.
  destruct (bool_decide _); [done|].
  destruct (negb _); [done|].
  by destruct (mx_result _) as [[|mx_server others]|].
Qed.

Lemma disabled_probe_ignores_mail_hosts_witness :
  BLACKLISTED_DOMAINS (Scenario.world [] (Return Scenario.two_records) Scenario.friendly)
  = BLACKLISTED_DOMAINS
      (Scenario.world [] (Return Scenario.two_records)
         (Scenario.server (Raise ConnectionRefusedError)
            (Scenario.accept 250) (Scenario.accept 250))) /\
  tld_iteration (Scenario.world [] (Return Scenario.two_records) Scenario.friendly)
  = tld_iteration
      (Scenario.world [] (Return Scenario.two_records)
         (Scenario.server (Raise ConnectionRefusedError)
            (Scenario.accept 250) (Scenario.accept 250))) /\
  dns_mx (Scenario.world [] (Return Scenario.two_records) Scenario.friendly)
  = dns_mx
      (Scenario.world [] (Return Scenario.two_records)
         (Scenario.server (Raise ConnectionRefusedError)
            (Scenario.accept 250) (Scenario.accept 250))) /\
  validate_email (Scenario.world [] (Return Scenario.two_records) Scenario.friendly)
    "user@example.com" false tt
  = validate_email
      (Scenario.world [] (Return Scenario.two_records)
         (Scenario.server (Raise ConnectionRefusedError)
            (Scenario.accept 250) (Scenario.accept 250)))
      "user@example.com" false tt.
Proof.
  split; [reflexivity|]. split; [reflexivity|]. split; [reflexivity|].
  exact (disabled_probe_ignores_mail_hosts
           (Scenario.world [] (Return Scenario.two_records) Scenario.friendly)
           (Scenario.world [] (Return Scenario.two_records)
              (Scenario.server (Raise ConnectionRefusedError)
                 (Scenario.accept 250) (Scenario.accept 250)))
           "user@example.com" eq_refl eq_refl eq_refl).
Defined.

(** X21. With probing disabled, validation does not depend on the case of
    the address: the result and the calls for the lower-cased address are
    those for the address as given. *)
Theorem disabled_probe_case_insensitive (env : Env) (email : string) :
  validate_email env (Py.lower email) false tt = validate_email env email false tt.
Proof.
  rewrite !validate_email_calls.
  unfold verdict, validation_trace.
  rewrite domain_of_lower, !is_role_based_key, role_key_lower. reflexivity.
Qed.

(** ** Loading the blacklist *)

Lemma py_rstrip_cons (c : ascii) (s : string) :
  py_rstrip (String c s) =
  match py_rstrip s with
  | EmptyString => if py_isspace c then EmptyString else String c EmptyString
  | kept => String c kept
  end.
Proof. reflexivity. Qed.

Lemma rstrip_idempotent (s : string) : py_rstrip (py_rstrip s) = py_rstrip s.
Proof.
  induction s as [|c s IH]; [done|].
  rewrite py_rstrip_cons. destruct (py_rstrip s) as [|k kept] eqn:Hkept.
  - destruct (py_isspace c) eqn:Hc; [done|]. cbn [py_rstrip]. by rewrite Hc.
  - by rewrite py_rstrip_cons, IH.
Qed.

(** A string without trailing white space keeps that property when
    characters are removed from its front. *)
Lemma rstrip_fixed_tail (c : ascii) (s : string) :
  py_rstrip (String c s) = String c s -> py_rstrip s = s.
Proof.
  rewrite py_rstrip_cons. destruct (py_rstrip s) as [|k kept].
  - destruct (py_isspace c); [done|]. by intros [= <-].
  - by intros [= <-].
Qed.

Lemma rstrip_lstrip_fixed (s : string) :
  py_rstrip s = s -> py_rstrip (py_lstrip s) = py_lstrip s.
Proof.
  induction s as [|c s IH]; [done|]. intros Hfixed.
  cbn [py_lstrip]. destruct (py_isspace c); [|exact Hfixed].
  apply IH. by apply rstrip_fixed_tail in Hfixed.
Qed.

Lemma lstrip_idempotent (s : string) : py_lstrip (py_lstrip s) = py_lstrip s.
Proof.
  induction s as [|c s IH]; [done|].
  cbn [py_lstrip]. destruct (py_isspace c) eqn:Hc; [exact IH|].
  cbn [py_lstrip]. by rewrite Hc.
Qed.

Lemma strip_idempotent (s : string) : py_strip (py_strip s) = py_strip s.
Proof.
  unfold py_strip.
  rewrite (rstrip_lstrip_fixed (py_rstrip s)) by apply rstrip_idempotent.
  apply lstrip_idempotent.
Qed.

Lemma rstrip_lower (s : string) : py_rstrip (Py.lower s) = Py.lower (py_rstrip s).
Proof.
  induction s as [|c s IH]; [done|].
  cbn [Py.lower]. rewrite !py_rstrip_cons, IH, isspace_lower_char.
  destruct (py_rstrip s); [by destruct (py_isspace c)|done].
Qed.

Lemma lstrip_lower (s : string) : py_lstrip (Py.lower s) = Py.lower (py_lstrip s).
Proof.
  induction s as [|c s IH]; [done|].
  cbn [Py.lower py_lstrip]. rewrite isspace_lower_char.
  destruct (py_isspace c); [exact IH|done].
Qed.

Lemma strip_lower (s : string) : py_strip (Py.lower s) = Py.lower (py_strip s).
Proof. unfold py_strip. by rewrite rstrip_lower, lstrip_lower. Qed.

Lemma nonempty_true (s : string) : nonempty s = true <-> s <> "".
Proof. by destruct s. Qed.

(** The set [load_blacklist] returns for a readable file. *)
Lemma load_blacklist_member (fs : FileSystem) (file_path : string)
    (lines : list string) (domain : string) :
  path_exists fs file_path = true ->
  read_text fs file_path = Lines lines ->
  exists domains,
    (load_blacklist fs file_path).1 = Return domains /\
    (domain ∈ domains <->
     exists line, line ∈ lines /\ py_strip line <> "" /\
                  domain = Py.lower (py_strip line)).
Proof.
  intros Hexists Hread. unfold load_blacklist. rewrite Hexists, Hread.
  cbn [negb fst]. eexists. split; [reflexivity|].
  rewrite elem_of_list_to_set, list_elem_of_In, in_map_iff. split.
  - intros (line & <- & Hin). apply filter_In in Hin as [Hin Hne].
    exists line. rewrite list_elem_of_In. by rewrite nonempty_true in Hne.
  - intros (line & Hin & Hne & ->). exists line. split; [done|].
    apply filter_In. rewrite <- list_elem_of_In, nonempty_true. done.
Qed.

(** X22. Loading never fails: whatever the file system does, the call
    returns a set; a missing file and a file that cannot be read both give
    the empty set, each with one printed line. *)
Theorem load_blacklist_never_fails (fs : FileSystem) (file_path : string) :
  exists domains printed,
    load_blacklist fs file_path = (Return domains, printed) /\
    (path_exists fs file_path = false ->
     domains = ∅ /\
     printed = ["Warning: Blacklist file not found at: " +:+ file_path]) /\
    (forall e text,
        path_exists fs file_path = true ->
        read_text fs file_path = ReadError e text ->
        domains = ∅ /\ printed = ["Error loading blacklist: " +:+ text]).
Proof.
  unfold load_blacklist.
  destruct (path_exists fs file_path); cbn [negb].
  - destruct (read_text fs file_path) as [lines|e text].
    + eexists _, _. split; [reflexivity|]. split; [done|]. by intros ? ? _ ?.
    + rewrite isinstance_Exception.
      eexists _, _. split; [reflexivity|]. split; [done|].
      by intros ? ? _ [= <- <-].
  - eexists _, _. split; [reflexivity|]. split; [done|]. by intros ? ? ?.
Qed.

(** X23. Every entry of a loaded blacklist is in normal form: not empty,
    without white space at either end, and equal to its own lower-case
    form. *)
Theorem load_blacklist_entries_normalised
    (fs : FileSystem) (file_path : string) (domains : gset string)
    (domain : string) :
  (load_blacklist fs file_path).1 = Return domains ->
  domain ∈ domains ->
  domain <> "" /\ py_strip domain = domain /\ Py.lower domain = domain.
Proof.
  unfold load_blacklist.
  destruct (path_exists fs file_path); cbn [negb];
    [|intros [= <-]; set_solver].
  destruct (read_text fs file_path) as [lines|e text].
  - cbn [fst]. intros [= <-].
    rewrite elem_of_list_to_set, list_elem_of_In, in_map_iff.
    intros (line & <- & Hin). apply filter_In in Hin as [_ Hne].
    apply nonempty_true in Hne. repeat split.
    + by destruct (py_strip line).
    + by rewrite strip_lower, strip_idempotent.
    + apply lower_idempotent.
  - rewrite isinstance_Exception. cbn [fst]. intros [= <-]. set_solver.
Qed.

Lemma load_blacklist_entries_normalised_witness :
  (load_blacklist Files.listing BLACKLIST_FILE).1
  = Return (list_to_set ["example.org"; "spam.test"; "mailinator.com"]) /\
  "spam.test" ∈ (list_to_set ["example.org"; "spam.test"; "mailinator.com"]
                 : gset string) /\
  "spam.test" <> "" /\ py_strip "spam.test" = "spam.test" /\
  Py.lower "spam.test" = "spam.test".
Proof.
  assert ((load_blacklist Files.listing BLACKLIST_FILE).1
          = Return (list_to_set ["example.org"; "spam.test"; "mailinator.com"]))
    as Hload by reflexivity.
  assert ("spam.test" ∈ (list_to_set ["example.org"; "spam.test"; "mailinator.com"]
                         : gset string)) as Hin
    by (apply elem_of_list_to_set, list_elem_of_further, list_elem_of_here).
  split; [exact Hload|]. split; [exact Hin|].
  exact (load_blacklist_entries_normalised Files.listing BLACKLIST_FILE _
           "spam.test" Hload Hin).
Defined.

Section Startup.
Variable fs : FileSystem.
Variable env : Env.

(** X24. A domain written on a line of the blacklist file, with any padding
    and in any case, is blacklisted for every address of that domain, in any
    case: the validation returns [is_blacklisted] true without any call. *)
Theorem listed_domain_is_blacklisted (lines : list string) (line email : string)
    (smtp_check_enabled : bool) :
  path_exists fs BLACKLIST_FILE = true ->
  read_text fs BLACKLIST_FILE = Lines lines ->
  line ∈ lines ->
  py_strip line <> "" ->
  Py.lower (py_strip line) = Py.lower (Py.final (Py.split "@" email)) ->
  exists result,
    validate_email (started fs env) email smtp_check_enabled tt
    = (Return result, tt, []) /\
    ValidationResult.is_blacklisted result = true.
Proof.
  intros Hexists Hread Hin Hne Hdomain.
  destruct (load_blacklist_member fs BLACKLIST_FILE lines (domain_of email)
              Hexists Hread) as (domains & Hload & Hmember).
  assert (domain_of email ∈ BLACKLISTED_DOMAINS (started fs env)) as Hlisted.
  { unfold started. cbn [BLACKLISTED_DOMAINS]. rewrite Hload.
    apply Hmember. by exists line. }
  rewrite validate_email_calls. unfold verdict, validation_trace.
  rewrite !bool_decide_eq_true_2 by exact Hlisted.
  by eexists.
Qed.

(** X25. When the blacklist file is missing or cannot be read, no address is
    reported as blacklisted. *)
Theorem unreadable_blacklist_disables_check (email : string)
    (smtp_check_enabled : bool) :
  path_exists fs BLACKLIST_FILE = false \/
  (exists e text, read_text fs BLACKLIST_FILE = ReadError e text) ->
  exists result trace,
    validate_email (started fs env) email smtp_check_enabled tt
    = (Return result, tt, trace) /\
    ValidationResult.is_blacklisted result = false.
Proof.
  intros Hfile.
  assert (BLACKLISTED_DOMAINS (started fs env) = ∅) as Hempty.
  { unfold started, load_blacklist. cbn [BLACKLISTED_DOMAINS].
    destruct (path_exists fs BLACKLIST_FILE); cbn [negb]; [|done].
    destruct Hfile as [?|(e & text & ->)]; [done|].
    by rewrite isinstance_Exception. }
  eexists _, _. split; [apply validate_email_calls|].
  unfold verdict. rewrite Hempty.
  rewrite bool_decide_eq_false_2 by set_solver.
  destruct (negb _); [done|].
  destruct (mx_result _) as [[|mx_server others]|]; [done| |done].
  destruct smtp_check_enabled; [destruct (probe_verdict _ _ _)|];
    cbn [ValidationResult.message ValidationResult.set_message
         ValidationResult.set_smtp_check_status];
    by destruct (String.eqb _ "").
Qed.

End Startup.

Lemma listed_domain_is_blacklisted_witness :
  path_exists Files.listing BLACKLIST_FILE = true /\
  read_text Files.listing BLACKLIST_FILE
  = Lines ["example.org"; ""; "  Spam.Test  "; "   "; "mailinator.com"] /\
  "  Spam.Test  " ∈ ["example.org"; ""; "  Spam.Test  "; "   "; "mailinator.com"] /\
  py_strip "  Spam.Test  " <> "" /\
  Py.lower (py_strip "  Spam.Test  ")
  = Py.lower (Py.final (Py.split "@" "User@SPAM.test")) /\
  exists result,
    validate_email
      (started Files.listing
         (Scenario.world [] (Return Scenario.two_records) Scenario.friendly))
      "User@SPAM.test" true tt
    = (Return result, tt, []) /\
    ValidationResult.is_blacklisted result = true.
Proof.
  assert ("  Spam.Test  "
            ∈ ["example.org"; ""; "  Spam.Test  "; "   "; "mailinator.com"]) as Hin
    by (do 2 apply list_elem_of_further; apply list_elem_of_here).
  split; [reflexivity|]. split; [reflexivity|]. split; [exact Hin|].
  split; [discriminate|]. split; [reflexivity|].
  apply (listed_domain_is_blacklisted Files.listing
           (Scenario.world [] (Return Scenario.two_records) Scenario.friendly)
           ["example.org"; ""; "  Spam.Test  "; "   "; "mailinator.com"]
           "  Spam.Test  " "User@SPAM.test" true);
    [reflexivity|reflexivity|exact Hin|discriminate|reflexivity].
Defined.

Lemma unreadable_blacklist_disables_check_witness :
  (path_exists Files.missing BLACKLIST_FILE = false \/
   exists e text, read_text Files.missing BLACKLIST_FILE = ReadError e text) /\
  exists result trace,
    validate_email
      (started Files.missing
         (Scenario.world ["spam.test"] (Return Scenario.two_records) Scenario.friendly))
      "user@spam.test" false tt
    = (Return result, tt, trace) /\
    ValidationResult.is_blacklisted result = false.
Proof.
  assert (path_exists Files.missing BLACKLIST_FILE = false \/
          exists e text, read_text Files.missing BLACKLIST_FILE = ReadError e text)
    as Hfile by (left; reflexivity).
  split; [exact Hfile|].
  exact (unreadable_blacklist_disables_check Files.missing
           (Scenario.world ["spam.test"] (Return Scenario.two_records)
              Scenario.friendly)
           "user@spam.test" false Hfile).
Defined.

(** X26. No recognized suffix passes the TLD check on its own, whatever the
    iteration order of the set: a domain must have a name before the
    suffix. *)
Theorem bare_suffix_rejected (tld_list : list string) (tld : string) :
  tld_list ≡ₚ VALID_TLDS_literal ->
  tld ∈ VALID_TLDS ->
  is_valid_tld tld_list tld = false.
Proof.
  intros Hperm Hin. rewrite (is_valid_tld_order_irrelevant tld_list) by done.
  unfold VALID_TLDS in Hin. apply elem_of_list_to_set in Hin.
  unfold VALID_TLDS_literal in Hin.
  repeat (apply elem_of_cons in Hin as [->|Hin]; [vm_compute; reflexivity|]).
  by apply elem_of_nil in Hin.
Qed.

Lemma bare_suffix_rejected_witness :
  VALID_TLDS_literal ≡ₚ VALID_TLDS_literal /\
  ".info" ∈ VALID_TLDS /\
  is_valid_tld VALID_TLDS_literal ".info" = false.
Proof.
  assert (".info" ∈ VALID_TLDS) as Hin
    by (unfold VALID_TLDS; apply elem_of_list_to_set;
        do 8 apply list_elem_of_further; apply list_elem_of_here).
  split; [reflexivity|]. split; [exact Hin|].
  exact (bare_suffix_rejected VALID_TLDS_literal ".info"
           (Permutation_refl _) Hin).
Defined.
